(** * gofs: a shallow embedding of the HTTP file server in package gofs

    The model follows the latest version of package gofs (the server with
    the response cache, the [noCache] and [noDirs] flags and the routes
    /entries/*addr and /content/*addr), and the archive extraction function
    [unzipToDir] of gofs.go.

    - Go strings and byte slices are modelled as [string] (a sequence of
      bytes); Go errors as a record holding the text [err.Error()] and
      whether [errors.Is(err, os.ErrNotExist)] holds.
    - The host operating system ([os.Stat], [os.ReadFile], [os.MkdirAll],
      [os.OpenFile], [File.Write], [os.ReadDir]) and the archive codec
      ([zipdir.ZipToBytes], [archive/zip.NewReader]) are the type class
      [OS]; the handlers are written against any instance.  [MemFS] is a
      concrete in-memory instance with the POSIX behaviour of these calls.
    - A handler runs in a state monad over [World]: the file system state,
      the cache [map[string][]byte], the calls made to the OS and the codec,
      the logger calls and the gin response writer. *)

From stdpp Require Import base gmap strings list.
From Stdlib Require Import ZArith Ascii String.
Open Scope string_scope.

(** ** Go strings and path/filepath *)

Module GoStr.

(** [strings.LastIndex(s, "/")]: byte index of the last '/', or -1. *)
Fixpoint lastIndexSlash_aux (s : string) (i : Z) (best : Z) : Z :=
  match s with
  | EmptyString => best
  | String c s' =>
      lastIndexSlash_aux s' (i + 1) (if Ascii.eqb c "/"%char then i else best)
  end.

Definition LastIndexSlash (s : string) : Z := lastIndexSlash_aux s 0 (-1).

(** Split a string at every '/'. *)
Fixpoint splitSlash (s : string) : list string :=
  match s with
  | EmptyString => [""]
  | String c s' =>
      if Ascii.eqb c "/"%char then "" :: splitSlash s'
      else match splitSlash s' with
           | [] => [String c ""]
           | w :: ws => String c w :: ws
           end
  end.

(** [strings.Join(elems, sep)]. *)
Fixpoint joinWith (sep : string) (l : list string) : string :=
  match l with
  | [] => ""
  | [x] => x
  | x :: l' => x ++ sep ++ joinWith sep l'
  end.

Definition isRooted (s : string) : bool :=
  match s with
  | String c _ => Ascii.eqb c "/"%char
  | EmptyString => false
  end.

(** The element-by-element reading of [filepath.Clean]: empty and "."
    elements vanish, ".." removes the preceding element other than "..",
    and ".." at the beginning of a rooted path vanishes.  [acc] is the
    output, last element first. *)
Fixpoint cleanElems (rooted : bool) (cs : list string) (acc : list string)
  : list string :=
  match cs with
  | [] => rev acc
  | c :: cs' =>
      if String.eqb c "" || String.eqb c "." then cleanElems rooted cs' acc
      else if String.eqb c ".." then
        match acc with
        | top :: acc' =>
            if String.eqb top ".." then cleanElems rooted cs' (c :: acc)
            else cleanElems rooted cs' acc'
        | [] => if rooted then cleanElems rooted cs' []
                else cleanElems rooted cs' [c]
        end
      else cleanElems rooted cs' (c :: acc)
  end.

(** [filepath.Clean] on a Unix host. *)
Definition Clean (p : string) : string :=
  if String.eqb p "" then "."
  else
    let rooted := isRooted p in
    let out := joinWith "/" (cleanElems rooted (splitSlash p) []) in
    if rooted then "/" ++ out
    else if String.eqb out "" then "." else out.

(** [filepath.Join]: the elements from the first non-empty one on, joined
    with '/' and cleaned; "" when all are empty. *)
Fixpoint Join (elems : list string) : string :=
  match elems with
  | [] => ""
  | e :: es => if String.eqb e "" then Join es else Clean (joinWith "/" (e :: es))
  end.

(** [filepath.Split]: the directory part, up to and including the last
    '/', and the file part. *)
Definition Split (p : string) : string * string :=
  let i := LastIndexSlash p in
  (substring 0 (Z.to_nat (i + 1)) p,
   substring (Z.to_nat (i + 1)) (String.length p) p).

End GoStr.

Arguments GoStr.Join : simpl never.


(** ** Errors, results and the interface of the host *)

(** A Go [error]: its text and whether [errors.Is(err, os.ErrNotExist)]. *)
Record goerror := mkErr { err_msg : string; err_notExist : bool }.

(** [fmt.Errorf] with [%v] does not wrap: the result is not [ErrNotExist]. *)
Definition errorf (msg : string) : goerror := mkErr msg false.

Inductive result (A : Type) : Type :=
| Ok (a : A)
| Err (e : goerror).
Arguments Ok {A} a.
Arguments Err {A} e.

Record FileInfo := mkInfo { IsDir : bool }.

(** An entry of an archive as [archive/zip] presents it: its name, the
    outcome of [file.Open()] and of [ioutil.ReadAll] on the opened reader. *)
Record ZipFile := mkZipFile {
  zf_Name : string;
  zf_Open : option goerror;
  zf_ReadAll : result string
}.

(** The host: the calls of package os the server makes, on a file-system
    state [St], and the archive codec. [os_OpenFile] is
    [os.OpenFile(p, O_CREATE|O_TRUNC|O_RDWR, ModePerm)], [os_OpenAppend]
    is [os.OpenFile(p, O_CREATE|O_APPEND|O_RDWR, ModePerm)] and
    [os_Write p d] is [Write(d)] on the file opened at [p]. *)
Class OS (St : Type) := {
  os_Stat : St -> string -> result FileInfo;
  os_ReadFile : St -> string -> result string;
  os_ReadDir : St -> string -> result (list string);
  os_MkdirAll : St -> string -> result St;
  os_OpenFile : St -> string -> result St;
  os_OpenAppend : St -> string -> result St;
  os_Write : St -> string -> string -> result St;
  zipdir_ZipToBytes : St -> string -> result string;
  zip_NewReader : string -> result (list ZipFile)
}.

(** ** Handler state: cache, OS calls, logger, gin response writer *)

Inductive Level := Trace | Debug | Info | Warn | Error.

(** A call made to the host, with whether it succeeded. *)
Inductive Call :=
| CStat (p : string) (ok : bool)
| CReadFile (p : string) (ok : bool)
| CReadDir (p : string) (ok : bool)
| CMkdirAll (p : string) (ok : bool)
| COpenFile (p : string) (ok : bool)
| CWrite (p : string) (ok : bool)
| CZipToBytes (p : string) (ok : bool)
| CNewReader (ok : bool).

(** The gin response writer: the first render fixes the status and the
    content type; later renders only append to the body. *)
Record Resp := mkResp {
  r_written : bool;
  r_status : Z;
  r_ctype : string;
  r_body : string
}.

Definition emptyResp : Resp := mkResp false 200 "" "".

Definition plainContentType : string := "text/plain; charset=utf-8".

Definition render (code : Z) (ct : string) (data : string) (r : Resp) : Resp :=
  if r_written r then mkResp true (r_status r) (r_ctype r) (r_body r ++ data)
  else mkResp true code ct data.

Record World (St : Type) := mkWorld {
  w_fs : St;
  w_cache : gmap string string;
  w_calls : list Call;
  w_log : list (Level * string);
  w_resp : Resp
}.
Arguments mkWorld {St}.
Arguments w_fs {St}.
Arguments w_cache {St}.
Arguments w_calls {St}.
Arguments w_log {St}.
Arguments w_resp {St}.

(** How a step of a handler ends: it continues with a value, the handler
    has executed [return], or it has panicked. *)
Inductive exit (A : Type) :=
| Cont (a : A)
| Stop
| Panic (msg : string).
Arguments Cont {A} a.
Arguments Stop {A}.
Arguments Panic {A} msg.

Definition M (St A : Type) := World St -> World St * exit A.

Section Monad.
Context {St : Type}.

Definition retM {A} (a : A) : M St A := fun w => (w, Cont a).

Definition bindM {A B} (m : M St A) (k : A -> M St B) : M St B :=
  fun w => match m w with
           | (w', Cont a) => k a w'
           | (w', Stop) => (w', Stop)
           | (w', Panic s) => (w', Panic s)
           end.

Definition stop {A} : M St A := fun w => (w, Stop).
Definition panic {A} (msg : string) : M St A := fun w => (w, Panic msg).

Definition modifyW (f : World St -> World St) : M St unit :=
  fun w => (f w, Cont tt).

Definition logM (l : Level) (msg : string) : M St unit :=
  modifyW (fun w => mkWorld (w_fs w) (w_cache w) (w_calls w)
                            (w_log w ++ [(l, msg)]) (w_resp w)).

(** [ctx.String(code, ...)] and [ctx.Data(code, ct, data)]. *)
Definition ctxString (code : Z) (s : string) : M St unit :=
  modifyW (fun w => mkWorld (w_fs w) (w_cache w) (w_calls w) (w_log w)
                            (render code plainContentType s (w_resp w))).

Definition ctxData (code : Z) (ct : string) (d : string) : M St unit :=
  modifyW (fun w => mkWorld (w_fs w) (w_cache w) (w_calls w) (w_log w)
                            (render code ct d (w_resp w))).

Definition cacheInsert (k v : string) : M St unit :=
  modifyW (fun w => mkWorld (w_fs w) (<[k := v]> (w_cache w)) (w_calls w)
                            (w_log w) (w_resp w)).

Definition getCache : M St (gmap string string) := fun w => (w, Cont (w_cache w)).

Definition isOk {A} (r : result A) : bool :=
  match r with Ok _ => true | Err _ => false end.

(** A query of the host: recorded, the state unchanged. *)
Definition query {A} (mk : bool -> Call) (f : St -> result A) : M St (result A) :=
  fun w => let r := f (w_fs w) in
           (mkWorld (w_fs w) (w_cache w) (w_calls w ++ [mk (isOk r)]) (w_log w)
                    (w_resp w), Cont r).

(** A host call that changes the file system on success. *)
Definition effect (mk : bool -> Call) (f : St -> result St) : M St (result unit) :=
  fun w => match f (w_fs w) with
           | Ok s' => (mkWorld s' (w_cache w) (w_calls w ++ [mk true]) (w_log w)
                               (w_resp w), Cont (Ok tt))
           | Err e => (mkWorld (w_fs w) (w_cache w) (w_calls w ++ [mk false])
                               (w_log w) (w_resp w), Cont (Err e))
           end.

End Monad.

Notation "'do' x <- m ; k" := (bindM m (fun x => k))
  (at level 200, x name, m at level 100, k at level 200).
Notation "'do_' m ; k" := (bindM m (fun _ => k))
  (at level 200, m at level 100, k at level 200).

(** ** The server *)

(** [type File struct { Name string; Data []byte }] *)
Record File := mkFile { Name : string; Data : string }.

Record Opts := mkOpts {
  Addr : string;
  Port : Z;
  RootDir : string;
  LogLevel : string;
  LogFile : string;
  NoCache : bool;
  NoDirectories : bool
}.

(** The configuration fields of [type Server struct]; its [cache] field is
    the [w_cache] of the [World]. *)
Record Server := mkServer { rootDir : string; noCache : bool; noDirs : bool }.

(** The requests routed by [Create]. *)
Inductive Request :=
| GetEntries (addr : string)                   (* GET /entries/*addr *)
| GetContent (addr : string)                   (* GET /content/*addr *)
| PostContent (contentType addr : string) (body : result string).
                                               (* POST /content/*addr *)

Section Handlers.
Context {St : Type} `{OS St}.

(** The first loop of [unzipToDir]: open and read every entry. *)
Fixpoint readZipFiles (zfs : list ZipFile) (files : list File)
  : result (list File) :=
  match zfs with
  | [] => Ok files
  | file :: zfs' =>
      match zf_Open file with
      | Some e => Err (errorf ("Failed to unzip file '" ++ zf_Name file ++ "': "
                               ++ err_msg e))
      | None =>
          match zf_ReadAll file with
          | Err e => Err (errorf ("Failed to read file data for file '"
                                  ++ zf_Name file ++ "': " ++ err_msg e))
          | Ok data => readZipFiles zfs' (files ++ [mkFile (zf_Name file) data])
          end
      end
  end.

(** The second loop of [unzipToDir]: for each file, [os.MkdirAll(dir)], then
    create or truncate [filepath.Join(dir, file.Name)] and write the data. *)
Fixpoint writeFiles (dir : string) (files : list File) : M St (option goerror) :=
  match files with
  | [] => retM None
  | file :: files' =>
      do r <- effect (CMkdirAll dir) (fun s => os_MkdirAll s dir);
      match r with
      | Err e => retM (Some (errorf ("failed to make dirs '" ++ dir ++ "': "
                                     ++ err_msg e)))
      | Ok _ =>
          let path := GoStr.Join [dir; Name file] in
          do r <- effect (COpenFile path) (fun s => os_OpenFile s path);
          match r with
          | Err e => retM (Some (errorf ("Failed to open or create file '" ++ path
                                         ++ "': " ++ err_msg e)))
          | Ok _ =>
              do r <- effect (CWrite path) (fun s => os_Write s path (Data file));
              match r with
              | Err e => retM (Some (errorf ("Failed to write data to file '"
                                             ++ path ++ "': " ++ err_msg e)))
              | Ok _ => writeFiles dir files'
              end
          end
      end
  end.

(** [func unzipToDir(dir string, zipData []byte) error] *)
Definition unzipToDir (dir zipData : string) : M St (option goerror) :=
  do r <- query CNewReader (fun _ => zip_NewReader zipData);
  match r with
  | Err e => retM (Some (errorf ("Failed to read zip data: " ++ err_msg e)))
  | Ok zfs =>
      match readZipFiles zfs [] with
      | Err e => retM (Some e)
      | Ok files => writeFiles dir files
      end
  end.

(** [func (s *Server) getFile(ctx *gin.Context)] *)
Definition getFile (s : Server) (fileAddr : string) : M St unit :=
  let path := GoStr.Join [rootDir s; fileAddr] in
  do_ logM Debug "Received get file request";
  do cache <- getCache;
  do_ (if negb (noCache s) then
         match cache !! path with
         | Some data =>
             do_ logM Info "Retrieved file data from cache";
             do_ ctxData 200 "application/zip" data;
             stop
         | None => retM tt
         end
       else retM tt);
  do r <- query (CStat path) (fun st => os_Stat st path);
  match r with
  | Err e =>
      do_ logM Warn "Failed to read file data";
      do_ ctxString 400 ("Failed to read file at '" ++ path ++ "': " ++ err_msg e);
      stop
  | Ok inf =>
      do data <-
        (if IsDir inf then
           if noDirs s then
             do_ ctxString 400 ("Path '" ++ path ++ "' is a directory and noDirs flag is true");
             do_ logM Warn "Path '%s' is a directory and noDirs flag is true";
             stop
           else
             do z <- query (CZipToBytes path) (fun st => zipdir_ZipToBytes st path);
             match z with
             | Err e =>
                 do_ logM Warn "Failed to zip dir";
                 do_ ctxString 400 ("Failed to zip dir '" ++ path ++ "': " ++ err_msg e);
                 stop
             | Ok data =>
                 do_ logM Info "Successfully returned directory as zip";
                 do_ ctxData 200 "application/zip" data;
                 retM data
             end
         else
           do f <- query (CReadFile path) (fun st => os_ReadFile st path);
           match f with
           | Err e =>
               do_ ctxString 400 ("Failed to read file at '" ++ path ++ "': " ++ err_msg e);
               stop
           | Ok data =>
               do_ logM Info "Successfully returned file as raw data";
               do_ ctxData 200 "raw" data;
               retM data
           end);
      if negb (noCache s) then cacheInsert path data else retM tt
  end.

(** [func (s *Server) uploadFile(ctx *gin.Context)]; [reqBody] is the
    outcome of [io.ReadAll(ctx.Request.Body)].  The zip branch extracts with
    [unzipToDir] above (the latest version calls the same function from
    package go-zipdir). *)
Definition uploadFile (s : Server) (contentType destAddr : string)
    (reqBody : result string) : M St unit :=
  let path := GoStr.Join [rootDir s; destAddr] in
  do_ logM Debug "Received upload file request";
  match reqBody with
  | Err e =>
      do_ logM Warn "Failed to read upload file request data";
      do_ ctxString 400 ("Failed to read request data: " ++ err_msg e);
      stop
  | Ok reqData =>
      do_ (if String.eqb contentType "application/zip" then
             if noDirs s then
               do_ ctxString 400 "Content type is application/zip but noDirs flag is set to true";
               do_ logM Warn "Content type is application/zip but noDirs flag is set to true";
               stop
             else
               do err <- unzipToDir path reqData;
               match err with
               | Some e =>
                   do_ logM Warn "Failed to unzip upload file request data";
                   ctxString 400 (err_msg e)
               | None => retM tt
               end
           else
             let i := GoStr.LastIndexSlash path in
             if (i <? 0)%Z then panic "runtime error: slice bounds out of range [:-1]"
             else
               let dir := substring 0 (Z.to_nat i) path in
               do r <- effect (CMkdirAll dir) (fun st => os_MkdirAll st dir);
               match r with
               | Err e =>
                   do_ logM Warn "Failed to create dirs";
                   do_ ctxString 400 ("Failed to make dirs '" ++ dir ++ "': " ++ err_msg e);
                   stop
               | Ok _ =>
                   do r <- effect (COpenFile path) (fun st => os_OpenFile st path);
                   match r with
                   | Err e =>
                       do_ logM Warn "Failed to create/truncate file during upload file request";
                       do_ ctxString 400 ("Failed to open file '" ++ path ++ "': " ++ err_msg e);
                       stop
                   | Ok _ =>
                       do r <- effect (CWrite path) (fun st => os_Write st path reqData);
                       match r with
                       | Err e =>
                           do_ logM Warn "Failed to write file data during upload file request";
                           do_ ctxString 400 ("Failed to write data to file '" ++ path
                                              ++ "': " ++ err_msg e);
                           stop
                       | Ok _ => retM tt
                       end
                   end
               end);
      do_ logM Info "File data successfully uploaded";
      ctxString 200 ("Successfully wrote data to '" ++ path ++ "'")
  end.

(** [func (s *Server) getEntries(ctx *gin.Context)] *)
Definition getEntries (s : Server) (relativePath : string) : M St unit :=
  let path := GoStr.Join [rootDir s; relativePath] in
  do r <- query (CReadDir path) (fun st => os_ReadDir st path);
  match r with
  | Err e =>
      do_ logM Warn "Failed to get entries in directory";
      do_ ctxString 400 ("Failed to read directory '" ++ path ++ "': " ++ err_msg e);
      stop
  | Ok entryNames =>
      let respString := GoStr.joinWith "," entryNames in
      do_ logM Info "Successfully processed entries request";
      ctxString 200 respString
  end.

(** The router of [Create]. *)
Definition handle (s : Server) (req : Request) : M St unit :=
  match req with
  | GetEntries addr => getEntries s addr
  | GetContent addr => getFile s addr
  | PostContent ct addr body => uploadFile s ct addr body
  end.

(** The world at the start of a request: a response writer not yet used. *)
Definition freshResp (w : World St) : World St :=
  mkWorld (w_fs w) (w_cache w) (w_calls w) (w_log w) emptyResp.

(** gin's Recovery middleware after a panic: [c.AbortWithStatus(500)],
    which sets the status only if nothing was written yet. *)
Definition recoverResp (r : Resp) : Resp :=
  if r_written r then r else mkResp true 500 "" "".

(** One request served: a fresh response writer, then the handler.  A
    panic is recovered by gin's Recovery middleware; the server goes on
    with the state the handler left. *)
Definition serve (s : Server) (req : Request) (w : World St) : World St :=
  let '(w', e) := handle s req (freshResp w) in
  match e with
  | Panic _ => mkWorld (w_fs w') (w_cache w') (w_calls w') (w_log w')
                 (recoverResp (w_resp w'))
  | _ => w'
  end.

Fixpoint serveAll (s : Server) (reqs : list Request) (w : World St) : World St :=
  match reqs with
  | [] => w
  | r :: rs => serveAll s rs (serve s r w)
  end.

(** [func createLogWriter(level, logFile string) (hclog.Logger, error)];
    only its effect on the file system and its error are modelled. *)
Definition createLogWriter (st : St) (level logFile : string) : result St :=
  if String.eqb logFile "" then Ok st
  else
    let dir := fst (GoStr.Split logFile) in
    match os_MkdirAll st dir with
    | Err e => Err (errorf ("failed to make dirs '" ++ dir ++ "': " ++ err_msg e))
    | Ok st1 =>
        match os_OpenAppend st1 logFile with
        | Err e => Err (errorf ("failed to open file '" ++ logFile ++ "': " ++ err_msg e))
        | Ok st2 => Ok st2
        end
    end.

(** [func checkIsDir(dir string) error] *)
Definition checkIsDir (st : St) (dir : string) : St * option goerror :=
  match os_Stat st dir with
  | Err e =>
      if err_notExist e then
        match os_MkdirAll st dir with
        | Err e' => (st, Some (errorf ("failed to create dir '" ++ dir ++ "': " ++ err_msg e')))
        | Ok st' => (st', None)
        end
      else (st, Some e)
  | Ok inf =>
      if IsDir inf then (st, None)
      else (st, Some (errorf ("rootDir '" ++ dir ++ "' is not directory")))
  end.

(** [Create(opts Opts)], which returns the server or an error: the server and the file
    system after construction. *)
Definition Create (opts : Opts) (st : St) : result (St * Server) :=
  match createLogWriter st (LogLevel opts) (LogFile opts) with
  | Err e => Err (errorf ("failed to create logger: " ++ err_msg e))
  | Ok st1 =>
      match checkIsDir st1 (RootDir opts) with
      | (_, Some e) => Err (errorf ("failed to read root dir: " ++ err_msg e))
      | (st2, None) => Ok (st2, mkServer (RootDir opts) (NoCache opts) (NoDirectories opts))
      end
  end.

(** The world of a freshly created server: [cache: make(map[string][]byte)]. *)
Definition initWorld (st : St) : World St := mkWorld st ∅ [] [] emptyResp.

End Handlers.

(** ** A concrete host: an in-memory file system with POSIX behaviour

    Paths are resolved from "/" (relative paths from a working directory
    "/"); a node is a directory or a regular file.  The archive codec is a
    parameter of the instance. *)

Module MemFS.

Inductive Node := NDir | NFile (d : string).

Definition FS := gmap (list string) Node.

(** The elements of the cleaned path. *)
Definition key (p : string) : list string :=
  GoStr.cleanElems true (GoStr.splitSlash p) [].

Definition enoent (op p : string) : goerror :=
  mkErr (op ++ " " ++ p ++ ": no such file or directory") true.
Definition enotdir (op p : string) : goerror :=
  mkErr (op ++ " " ++ p ++ ": not a directory") false.
Definition eisdir (op p : string) : goerror :=
  mkErr (op ++ " " ++ p ++ ": is a directory") false.

(** Path resolution: every proper prefix must be a directory. *)
Fixpoint walk (fs : FS) (op p : string) (pre k : list string) : result Node :=
  match k with
  | [] => Ok NDir
  | c :: k' =>
      let q := (pre ++ [c])%list in
      match fs !! q, k' with
      | None, _ => Err (enoent op p)
      | Some n, [] => Ok n
      | Some NDir, _ => walk fs op p q k'
      | Some (NFile _), _ => Err (enotdir op p)
      end
  end.

(** Whether the path ends with '/'. *)
Fixpoint endsWithSlash (p : string) : bool :=
  match p with
  | EmptyString => false
  | String c EmptyString => Ascii.eqb c "/"%char
  | String _ p' => endsWithSlash p'
  end.

(** A path with a trailing '/' names a directory: on a regular file it
    fails with ENOTDIR. *)
Definition resolve (fs : FS) (op p : string) : result Node :=
  if String.eqb p "" then Err (enoent op p)
  else
    match walk fs op p [] (key p) with
    | Ok (NFile d) => if endsWithSlash p then Err (enotdir op p) else Ok (NFile d)
    | r => r
    end.

Definition stat (fs : FS) (p : string) : result FileInfo :=
  match resolve fs "stat" p with
  | Ok NDir => Ok (mkInfo true)
  | Ok (NFile _) => Ok (mkInfo false)
  | Err e => Err e
  end.

Definition readFile (fs : FS) (p : string) : result string :=
  match resolve fs "open" p with
  | Ok (NFile d) => Ok d
  | Ok NDir => Err (eisdir "read" p)
  | Err e => Err e
  end.

Fixpoint insertSorted (x : string) (l : list string) : list string :=
  match l with
  | [] => [x]
  | y :: l' => if String.leb x y then x :: l else y :: insertSorted x l'
  end.

(** [os.ReadDir]: the names of the children, sorted by name. *)
Definition readDir (fs : FS) (p : string) : result (list string) :=
  match resolve fs "open" p with
  | Ok NDir =>
      let k := key p in
      Ok (foldr insertSorted []
            (omap (fun '(q, _) =>
                     match last q with
                     | Some c => if decide (q = (k ++ [c])%list) then Some c else None
                     | None => None
                     end) (map_to_list fs)))
  | Ok (NFile _) => Err (enotdir "open" p)
  | Err e => Err e
  end.

Definition eexist (op p : string) : goerror :=
  mkErr (op ++ " " ++ p ++ ": file exists") false.

(** [os.Mkdir]: every proper prefix must be a directory and the last
    element must not exist. *)
Definition mkdir (fs : FS) (p : string) : result FS :=
  let k := key p in
  if String.eqb p "" then Err (enoent "mkdir" p)
  else
    match walk fs "mkdir" p [] (removelast k) with
    | Err e => Err e
    | Ok (NFile _) => Err (enotdir "mkdir" p)
    | Ok NDir =>
        match k, fs !! k with
        | [], _ => Err (eexist "mkdir" p)
        | _, Some _ => Err (eexist "mkdir" p)
        | _, None => Ok (<[k := NDir]> fs)
        end
    end.

(** The parent taken by [os.MkdirAll]: the trailing separators and then the
    last element are dropped, and so is the separator before it; "" when
    there is none. *)
Fixpoint dropWhile (f : ascii -> bool) (l : list ascii) : list ascii :=
  match l with
  | [] => []
  | c :: l' => if f c then dropWhile f l' else l
  end.

Definition parentDir (p : string) : string :=
  let isSep c := Ascii.eqb c "/"%char in
  let l := dropWhile isSep (rev (list_ascii_of_string p)) in
  let l := dropWhile (fun c => negb (isSep c)) l in
  string_of_list_ascii (rev (List.tl l)).

(** [os.MkdirAll]: an existing directory is success and an existing file an
    ENOTDIR error; otherwise the parent is made first (its error is
    returned as is), then [os.Mkdir], whose error is ignored when the path
    is a directory afterwards.  [n] bounds the recursion: the parent is
    shorter than the path. *)
Fixpoint mkdirAllN (n : nat) (fs : FS) (p : string) : result FS :=
  match resolve fs "stat" p with
  | Ok NDir => Ok fs
  | Ok (NFile _) => Err (enotdir "mkdir" p)
  | Err _ =>
      let par := parentDir p in
      let r := if String.eqb par "" then Ok fs
               else match n with
                    | O => Ok fs
                    | S n' => mkdirAllN n' fs par
                    end in
      match r with
      | Err e => Err e
      | Ok fs1 =>
          match mkdir fs1 p with
          | Ok fs2 => Ok fs2
          | Err e =>
              match resolve fs1 "lstat" p with
              | Ok NDir => Ok fs1
              | _ => Err e
              end
          end
      end
  end.

Definition mkdirAll (fs : FS) (p : string) : result FS :=
  mkdirAllN (String.length p) fs p.

(** [os.OpenFile] with [O_CREATE]: the parent must be a directory, and a
    path with a trailing '/' cannot name a regular file; with [trunc] an
    existing file is emptied. *)
Definition openFile (trunc : bool) (fs : FS) (p : string) : result FS :=
  let k := key p in
  if String.eqb p "" then Err (enoent "open" p)
  else
    match walk fs "open" p [] (removelast k) with
    | Err e => Err e
    | Ok (NFile _) => Err (enotdir "open" p)
    | Ok NDir =>
        match k, fs !! k with
        | [], _ => Err (eisdir "open" p)
        | _, Some NDir => Err (eisdir "open" p)
        | _, Some (NFile d) =>
            if endsWithSlash p then Err (enotdir "open" p)
            else Ok (<[k := NFile (if trunc then "" else d)]> fs)
        | _, None =>
            if endsWithSlash p then Err (eisdir "open" p)
            else Ok (<[k := NFile ""]> fs)
        end
    end.

(** [Write] on the file opened at [p]: its data is appended at the offset,
    which is the end after a truncating open. *)
Definition write (fs : FS) (p : string) (d : string) : result FS :=
  match fs !! key p with
  | Some (NFile c) => Ok (<[key p := NFile (c ++ d)]> fs)
  | _ => Err (mkErr ("write " ++ p ++ ": bad file descriptor") false)
  end.

Definition memOS (zipToBytes : FS -> string -> result string)
    (newReader : string -> result (list ZipFile)) : OS FS := {|
  os_Stat := stat;
  os_ReadFile := readFile;
  os_ReadDir := readDir;
  os_MkdirAll := mkdirAll;
  os_OpenFile := openFile true;
  os_OpenAppend := openFile false;
  os_Write := write;
  zipdir_ZipToBytes := zipToBytes;
  zip_NewReader := newReader
|}.

(** A file system with the directory /srv. *)
Definition srvFS : FS := {[ ["srv"] := NDir ]}.

End MemFS.


(** ** An archive codec for concrete runs

    [zipdir.ZipToBytes] and [archive/zip.NewReader] are library code; the
    concrete runs below use this small stand-in: the "archive" of a
    directory names it, and the body "ZIP" decodes to the two entries
    a.txt = "hello" and sub/b.txt = "world". *)

Definition demoZipToBytes (fs : MemFS.FS) (p : string) : result string :=
  match MemFS.stat fs p with
  | Ok _ => Ok ("zip:" ++ p)
  | Err e => Err e
  end.

Definition demoEntries : list ZipFile :=
  [mkZipFile "a.txt" None (Ok "hello"); mkZipFile "sub/b.txt" None (Ok "world")].

Definition demoNewReader (b : string) : result (list ZipFile) :=
  if String.eqb b "ZIP" then Ok demoEntries
  else Err (mkErr "zip: not a valid zip file" false).

Definition demoOS : OS MemFS.FS := MemFS.memOS demoZipToBytes demoNewReader.

(** The server of the concrete runs: root /srv, cache and directories on. *)
Definition srvServer : Server := mkServer "/srv" false false.


(** A file system with the file /srv/f.txt holding "old". *)
Definition staleFS : MemFS.FS :=
  <[["srv"; "f.txt"] := MemFS.NFile "old"]> MemFS.srvFS.

(** A file system with the directory /srv and the regular file /f. *)
Definition fileFS : MemFS.FS := <[["f"] := MemFS.NFile "x"]> MemFS.srvFS.

(** A world whose cache holds /srv/x. *)
Definition cachedWorld : World MemFS.FS :=
  mkWorld MemFS.srvFS {[ "/srv/x" := "cached" ]} [] [] emptyResp.

Definition srvOpts : Opts := mkOpts "localhost" 9092 "/srv" "DEBUG" "" false false.

Section FrameDef.
Context {St : Type} `{OS St}.

(** A computation that leaves the cache as it is. *)
Definition keepsCache {A} (m : M St A) : Prop :=
  forall w, w_cache (fst (m w)) = w_cache w.

End FrameDef.

(** ** The log writer, the command-line entry point, and gofs.go

    An output stream of the log writer: what was written to it and the
    error its [Write] returns; a failing stream takes no bytes. *)
Record Sink := mkSink { sink_data : string; sink_fail : option goerror }.

Definition sinkWrite (k : Sink) (p : string) : Sink * (Z * option goerror) :=
  match sink_fail k with
  | Some e => (k, (0%Z, Some e))
  | None => (mkSink (sink_data k ++ p) None, (Z.of_nat (String.length p), None))
  end.

(** [func (w *logWriter) Write(p []byte) (n int, err error)]: standard
    output first, then the log file when there is one. *)
Definition logWriterWrite (stdout : Sink) (file : option Sink) (p : string)
  : Sink * option Sink * (Z * option goerror) :=
  let '(stdout', r) := sinkWrite stdout p in
  match snd r with
  | Some _ => (stdout', file, r)
  | None =>
      match file with
      | None => (stdout', None, r)
      | Some f => let '(f', r') := sinkWrite f p in (stdout', Some f', r')
      end
  end.

Section MainGo.
Context {St : Type} `{OS St}.

(** The [Run] function of the root command in main.go: the text printed
    and how it goes on.  After a failed [gofs.Create] the server is [nil],
    and [server.Run()] reads [s.srv] through it; after a successful one the
    server serves from the state reached. *)
Definition mainRun (opts : Opts) (st : St) : list string * exit (St * Server) :=
  match Create opts st with
  | Err e => (["Error while creating gofs server: " ++ err_msg e ++ "
"],
              Panic "runtime error: invalid memory address or nil pointer dereference")
  | Ok (st', s) => ([], Cont (st', s))
  end.

End MainGo.

(** The earlier version of the package in gofs.go. *)
Module GofsV0.
Section V0.
Context {St : Type} `{OS St}.

(** [func createLogWriter(level, logFile string) (hclog.Logger, error)]:
    [dir := logFile[:strings.LastIndex(logFile, "/")]] panics when the name
    holds no '/'. *)
Definition createLogWriter (st : St) (level logFile : string) : exit (result St) :=
  let i := GoStr.LastIndexSlash logFile in
  if (i <? 0)%Z then Panic "runtime error: slice bounds out of range [:-1]"
  else
    let dir := substring 0 (Z.to_nat i) logFile in
    match os_MkdirAll st dir with
    | Err e => Cont (Err (errorf ("failed to make dirs '" ++ dir ++ "': " ++ err_msg e)))
    | Ok st1 =>
        match os_OpenAppend st1 logFile with
        | Err e => Cont (Err (errorf ("failed to open file '" ++ logFile ++ "': " ++ err_msg e)))
        | Ok st2 => Cont (Ok st2)
        end
    end.

(** [func Create(opts Opts) error]; [Ok] stands for going on to listen for
    requests with the state reached. *)
Definition Create (opts : Opts) (st : St) : exit (result St) :=
  match createLogWriter st (LogLevel opts) (LogFile opts) with
  | Cont (Err e) => Cont (Err (errorf ("failed to create logger: " ++ err_msg e)))
  | Cont (Ok st1) =>
      match checkIsDir st1 (RootDir opts) with
      | (_, Some e) => Cont (Err (errorf ("failed to read root dir: " ++ err_msg e)))
      | (st2, None) => Cont (Ok st2)
      end
  | Stop => Stop
  | Panic m => Panic m
  end.

End V0.
End GofsV0.

(** An archive entry that opens and reads as the given file. *)
Definition goodEntry (f : File) : ZipFile := mkZipFile (Name f) None (Ok (Data f)).

(** A host with faults: its regular files cannot be read and its
    directories cannot be archived (permission denied), its disk is full,
    and its archive reader finds a second entry it cannot open. *)
Definition deniedErr (op p : string) : goerror :=
  mkErr (op ++ " " ++ p ++ ": permission denied") false.

Definition brokenEntry : ZipFile :=
  mkZipFile "b.txt" (Some (mkErr "zip: unsupported compression algorithm" false)) (Ok "").

Definition faultyOS : OS MemFS.FS := {|
  os_Stat := MemFS.stat;
  os_ReadFile := fun fs p =>
    match MemFS.readFile fs p with Ok _ => Err (deniedErr "open" p) | Err e => Err e end;
  os_ReadDir := MemFS.readDir;
  os_MkdirAll := MemFS.mkdirAll;
  os_OpenFile := MemFS.openFile true;
  os_OpenAppend := MemFS.openFile false;
  os_Write := fun _ p _ => Err (mkErr ("write " ++ p ++ ": no space left on device") false);
  zipdir_ZipToBytes := fun fs p =>
    match MemFS.stat fs p with Ok _ => Err (deniedErr "open" p) | Err e => Err e end;
  zip_NewReader := fun _ => Ok [goodEntry (mkFile "a.txt" "hello"); brokenEntry]
|}.

(** The state after creating /srv/d and the file /srv/d/new.txt in
    [staleFS], and after writing "hi" to it. *)
Definition staleFS_d : MemFS.FS := <[["srv"; "d"] := MemFS.NDir]> staleFS.
Definition staleFS_new : MemFS.FS :=
  <[["srv"; "d"; "new.txt"] := MemFS.NFile ""]> staleFS_d.
Definition staleFS_hi : MemFS.FS :=
  <[["srv"; "d"; "new.txt"] := MemFS.NFile "hi"]> staleFS_d.

(** ** Sanity checks of the model *)

Example join_root_addr : GoStr.Join ["/srv/root"; "/a/../b//c.txt"] = "/srv/root/b/c.txt".
Proof. reflexivity. Qed.

Example join_relative_slash : GoStr.Join ["data"; "/"] = "data".
Proof. reflexivity. Qed.

Example lastindex_none : GoStr.LastIndexSlash "data" = (-1)%Z.
Proof. reflexivity. Qed.

Example memfs_mkdir_open :
  match MemFS.mkdirAll MemFS.srvFS "/srv/d" with
  | Ok fs => MemFS.stat fs "/srv/d" = Ok (mkInfo true)
             /\ isOk (MemFS.openFile true fs "/srv/d/sub/b.txt") = false
  | Err _ => False
  end.
Proof. vm_compute. split; reflexivity. Qed.

(** ** Proofs *)

Ltac run_handler :=
  repeat (unfold getFile, uploadFile, getEntries, handle, serve, unzipToDir,
            bindM, logM, modifyW, getCache, query, effect, ctxString, ctxData,
            cacheInsert, stop, panic, retM, freshResp, render in *; simpl in *).

Section GetFile.
Context {St : Type} `{OS St}.

Lemma getFile_from_cache (s : Server) (addr data : string) (w : World St) :
  noCache s = false ->
  w_cache w !! GoStr.Join [rootDir s; addr] = Some data ->
  getFile s addr (freshResp w) =
    (mkWorld (w_fs w) (w_cache w) (w_calls w)
       (w_log w ++ [(Debug, "Received get file request");
                    (Info, "Retrieved file data from cache")])
       (mkResp true 200 "application/zip" data), Stop).
Proof.
  intros Hnc Hc. destruct w as [fs c calls lg r]. run_handler.
  rewrite Hnc. simpl. rewrite Hc. simpl. now rewrite <- app_assoc.
Qed.

Lemma getFile_dir_zip (s : Server) (addr data : string) (w : World St)
    (inf : FileInfo) :
  let path := GoStr.Join [rootDir s; addr] in
  noCache s = false -> noDirs s = false ->
  w_cache w !! path = None ->
  os_Stat (w_fs w) path = Ok inf -> IsDir inf = true ->
  zipdir_ZipToBytes (w_fs w) path = Ok data ->
  getFile s addr (freshResp w) =
    (mkWorld (w_fs w) (<[path := data]> (w_cache w))
       (w_calls w ++ [CStat path true; CZipToBytes path true])
       (w_log w ++ [(Debug, "Received get file request");
                    (Info, "Successfully returned directory as zip")])
       (mkResp true 200 "application/zip" data), Cont tt).
Proof.
  intros path Hnc Hnd Hc Hst Hdir Hz. destruct w as [fs c calls lg r].
  unfold path in *. run_handler.
  rewrite Hnc. simpl. rewrite Hc. simpl. rewrite Hst. simpl. rewrite Hdir, Hnd.
  simpl. rewrite Hz. simpl. now rewrite <- !app_assoc.
Qed.

(** C2: with caching enabled, a get-content request whose resolved path is
    in the cache answers 200 with the cached bytes and content type
    application/zip, logs an Info event, and makes no call to the host: no
    stat, no read, no archive codec; file system and cache are unchanged. *)
Theorem getFile_cache_hit (s : Server) (addr data : string) (w : World St) :
  noCache s = false ->
  w_cache w !! GoStr.Join [rootDir s; addr] = Some data ->
  getFile s addr (freshResp w) =
    (mkWorld (w_fs w) (w_cache w) (w_calls w)
       (w_log w ++ [(Debug, "Received get file request");
                    (Info, "Retrieved file data from cache")])
       (mkResp true 200 "application/zip" data), Stop).
Proof. apply getFile_from_cache. Qed.

(** C7: with directory serving disabled, a get-content request for a
    directory that is not served from the cache answers 400 with the message
    that the path is a directory while the noDirs flag is set, logs at Warn,
    makes only the stat call (no archive codec call), and leaves the cache
    unchanged. *)
Theorem getFile_dir_noDirs (s : Server) (addr : string) (w : World St)
    (inf : FileInfo) :
  let path := GoStr.Join [rootDir s; addr] in
  noDirs s = true ->
  (noCache s = true \/ w_cache w !! path = None) ->
  os_Stat (w_fs w) path = Ok inf ->
  IsDir inf = true ->
  getFile s addr (freshResp w) =
    (mkWorld (w_fs w) (w_cache w) (w_calls w ++ [CStat path true])
       (w_log w ++ [(Debug, "Received get file request");
                    (Warn, "Path '%s' is a directory and noDirs flag is true")])
       (mkResp true 400 plainContentType
          ("Path '" ++ path ++ "' is a directory and noDirs flag is true")), Stop).
Proof.
  intros path Hnd Hmiss Hst Hdir. destruct w as [fs c calls lg r].
  unfold path in *. run_handler.
  destruct (noCache s) eqn:Hnc; simpl;
    [| destruct Hmiss as [Hf | Hc]; [discriminate | rewrite Hc]]; simpl;
    rewrite Hst; simpl; rewrite Hdir, Hnd; simpl; now rewrite <- app_assoc.
Qed.

(** C8: a get-content request that is not served from the cache and whose
    resolved path fails to stat answers 400 with a body holding the resolved
    path and the error text, logs at Warn, and makes no call to the host
    after the stat; file system and cache are unchanged. *)
Theorem getFile_stat_error (s : Server) (addr : string) (w : World St)
    (e : goerror) :
  let path := GoStr.Join [rootDir s; addr] in
  (noCache s = true \/ w_cache w !! path = None) ->
  os_Stat (w_fs w) path = Err e ->
  getFile s addr (freshResp w) =
    (mkWorld (w_fs w) (w_cache w) (w_calls w ++ [CStat path false])
       (w_log w ++ [(Debug, "Received get file request");
                    (Warn, "Failed to read file data")])
       (mkResp true 400 plainContentType
          ("Failed to read file at '" ++ path ++ "': " ++ err_msg e)), Stop).
Proof.
  intros path Hmiss Hst. destruct w as [fs c calls lg r].
  unfold path in *. run_handler.
  destruct (noCache s) eqn:Hnc; simpl;
    [| destruct Hmiss as [Hf | Hc]; [discriminate | rewrite Hc]]; simpl;
    rewrite Hst; simpl; now rewrite <- app_assoc.
Qed.

(** C4: with caching enabled and directories served, a directory that is
    not yet cached and that the codec archives into [data] is fetched
    twice: both responses are 200 with the body [data]; the first call
    invokes the codec and stores [data] in the cache under the resolved
    path, the second makes no call to the host (no codec call). *)
Theorem getFile_dir_twice (s : Server) (addr data : string) (w : World St)
    (inf : FileInfo) :
  let path := GoStr.Join [rootDir s; addr] in
  noCache s = false -> noDirs s = false ->
  w_cache w !! path = None ->
  os_Stat (w_fs w) path = Ok inf -> IsDir inf = true ->
  zipdir_ZipToBytes (w_fs w) path = Ok data ->
  let w1 := fst (getFile s addr (freshResp w)) in
  let w2 := fst (getFile s addr (freshResp w1)) in
  w_resp w1 = mkResp true 200 "application/zip" data /\
  w_resp w2 = mkResp true 200 "application/zip" data /\
  w_cache w1 = <[path := data]> (w_cache w) /\
  w_calls w1 = (w_calls w ++ [CStat path true; CZipToBytes path true])%list /\
  w_calls w2 = w_calls w1 /\
  w_cache w2 = w_cache w1 /\ w_fs w2 = w_fs w1 /\ w_fs w1 = w_fs w.
Proof.
  intros path Hnc Hnd Hc Hst Hdir Hz w1 w2.
  assert (E1 : getFile s addr (freshResp w) =
    (mkWorld (w_fs w) (<[path := data]> (w_cache w))
       (w_calls w ++ [CStat path true; CZipToBytes path true])
       (w_log w ++ [(Debug, "Received get file request");
                    (Info, "Successfully returned directory as zip")])
       (mkResp true 200 "application/zip" data), Cont tt))
    by (apply getFile_dir_zip with inf; assumption).
  unfold w2, w1. rewrite E1. simpl.
  rewrite (getFile_from_cache s addr data); [| assumption | ].
  - simpl. repeat split.
  - simpl. fold path. apply lookup_insert_eq.
Qed.

End GetFile.

Section Frame.
Context {St : Type} `{OS St}.


Lemma keeps_ret {A} (a : A) : keepsCache (@retM St A a).
Proof. intros w. reflexivity. Qed.

Lemma keeps_stop {A} : keepsCache (@stop St A).
Proof. intros w. reflexivity. Qed.

Lemma keeps_panic {A} msg : keepsCache (@panic St A msg).
Proof. intros w. reflexivity. Qed.

Lemma keeps_log l msg : keepsCache (@logM St l msg).
Proof. intros w. reflexivity. Qed.

Lemma keeps_string code msg : keepsCache (@ctxString St code msg).
Proof. intros w. reflexivity. Qed.

Lemma keeps_data code ct d : keepsCache (@ctxData St code ct d).
Proof. intros w. reflexivity. Qed.

Lemma keeps_query {A} mk (f : St -> result A) : keepsCache (query mk f).
Proof. intros w. reflexivity. Qed.

Lemma keeps_effect mk (f : St -> result St) : keepsCache (effect mk f).
Proof. intros w. unfold effect. now destruct (f (w_fs w)). Qed.

Lemma keeps_bind {A B} (m : M St A) (k : A -> M St B) :
  keepsCache m -> (forall a, keepsCache (k a)) -> keepsCache (bindM m k).
Proof.
  intros Hm Hk w. unfold bindM. specialize (Hm w).
  destruct (m w) as [w' [a| |msg]]; simpl in *; [rewrite Hk|..]; exact Hm.
Qed.

End Frame.

Create HintDb keeps.
#[export] Hint Resolve keeps_ret keeps_stop keeps_panic keeps_log keeps_string
  keeps_data keeps_query keeps_effect : keeps.

Ltac keeps_tac :=
  repeat match goal with
  | |- keepsCache (bindM _ _) => apply keeps_bind; [|intros]
  | |- keepsCache (match ?x with _ => _ end) => destruct x
  | |- keepsCache (if ?b then _ else _) => destruct b
  | |- _ => solve [eauto with keeps]
  end.

Section Frame2.
Context {St : Type} `{OS St}.

Lemma keeps_writeFiles dir files : keepsCache (@writeFiles St _ dir files).
Proof. induction files as [|f fs IH]; simpl; keeps_tac. Qed.

Lemma keeps_unzipToDir dir d : keepsCache (@unzipToDir St _ dir d).
Proof. unfold unzipToDir. keeps_tac; apply keeps_writeFiles. Qed.

Lemma keeps_uploadFile s ct addr body : keepsCache (@uploadFile St _ s ct addr body).
Proof. unfold uploadFile. cbv zeta. keeps_tac; apply keeps_unzipToDir. Qed.

Lemma keeps_getEntries s addr : keepsCache (@getEntries St _ s addr).
Proof. unfold getEntries. cbv zeta. keeps_tac. Qed.

End Frame2.


(** C5: an upload request, whatever its outcome (success, error response or
    panic), leaves every cache entry as it was, also the one of the path it
    writes; so with caching enabled a get-content request right after an
    upload can return the bytes from before the upload.  The run: fetch
    /f.txt ("old" is cached), upload "new" to /f.txt (200, the file now
    holds "new"), fetch /f.txt again: the answer is "old". *)
Theorem uploadFile_keeps_cache :
  (forall (St : Type) (os : OS St) (s : Server) (contentType destAddr : string)
          (body : result string) (w : World St),
     w_cache (fst (uploadFile s contentType destAddr body w)) = w_cache w) /\
  (let w1 := @serve _ demoOS srvServer (GetContent "/f.txt") (initWorld staleFS) in
   let w2 := @serve _ demoOS srvServer (PostContent "text/plain" "/f.txt" (Ok "new")) w1 in
   let w3 := @serve _ demoOS srvServer (GetContent "/f.txt") w2 in
   w_cache w1 !! "/srv/f.txt" = Some "old" /\
   w_resp w2 = mkResp true 200 plainContentType "Successfully wrote data to '/srv/f.txt'" /\
   w_cache w2 = w_cache w1 /\
   MemFS.readFile (w_fs w2) "/srv/f.txt" = Ok "new" /\
   w_resp w3 = mkResp true 200 "application/zip" "old").
Proof.
  split.
  - intros St os s ct addr body w. apply keeps_uploadFile.
  - vm_compute. repeat split.
Qed.

Section Invariant.
Context {St : Type} `{OS St}.

Ltac branch_cases :=
  repeat (match goal with
          | |- context [noCache ?s] => destruct (noCache s) eqn:?
          | |- context [noDirs ?s] => destruct (noDirs s) eqn:?
          | |- context [?c !! ?k] => destruct (c !! k) eqn:?
          | |- context [os_Stat ?a ?b] => destruct (os_Stat a b)
          | |- context [IsDir ?i] => destruct (IsDir i)
          | |- context [zipdir_ZipToBytes ?a ?b] => destruct (zipdir_ZipToBytes a b)
          | |- context [os_ReadFile ?a ?b] => destruct (os_ReadFile a b)
          end; simpl).

(** A get-content request either leaves the cache as it is, or, with
    caching on and a cache miss, adds the resolved path with the bytes of a
    successful read or a successful archive, and only then. *)
Lemma getFile_cache_step (s : Server) (addr : string) (w : World St) :
  let path := GoStr.Join [rootDir s; addr] in
  let w' := fst (getFile s addr w) in
  w_cache w' = w_cache w \/
  (noCache s = false /\ w_cache w !! path = None /\
   exists data l, w_cache w' = <[path := data]> (w_cache w) /\
     w_calls w' = (w_calls w ++ l)%list /\
     (CReadFile path true ∈ l \/ CZipToBytes path true ∈ l)).
Proof.
  destruct w as [fs c calls lg r]. cbv zeta.
  run_handler. branch_cases;
  first [ left; reflexivity
        | right; split; [reflexivity|]; split; [reflexivity|];
          eexists _, _; split; [reflexivity|]; split;
          [rewrite <- !app_assoc; reflexivity | simpl; set_solver] ].
Qed.

Lemma serve_state (s : Server) (req : Request) (w : World St) :
  w_cache (serve s req w) = w_cache (fst (handle s req (freshResp w))) /\
  w_calls (serve s req w) = w_calls (fst (handle s req (freshResp w))).
Proof. unfold serve. destruct (handle s req (freshResp w)) as [w' [a| |m]]; auto. Qed.

Lemma serve_cache_step (s : Server) (req : Request) (w : World St) :
  let w' := serve s req w in
  w_cache w' = w_cache w \/
  (exists addr, req = GetContent addr /\
   let path := GoStr.Join [rootDir s; addr] in
   w_cache w !! path = None /\
   exists data l, w_cache w' = <[path := data]> (w_cache w) /\
     w_calls w' = (w_calls w ++ l)%list /\
     (CReadFile path true ∈ l \/ CZipToBytes path true ∈ l)).
Proof.
  cbv zeta. destruct (serve_state s req w) as [-> ->].
  unfold handle. destruct req as [addr|addr|ct addr body].
  - left. apply (keeps_getEntries s addr (freshResp w)).
  - destruct (getFile_cache_step s addr (freshResp w)) as [E | (_ & Hn & data & l & E1 & E2 & Hl)].
    + left. exact E.
    + right. exists addr. split; [reflexivity|].
      split; [exact Hn|]. exists data, l. auto.
  - left. apply (keeps_uploadFile s ct addr body (freshResp w)).
Qed.

Lemma serve_cache_mono (s : Server) (req : Request) (w : World St) :
  w_cache w ⊆ w_cache (serve s req w).
Proof.
  destruct (serve_cache_step s req w) as [E | (addr & _ & Hn & data & l & E & _)].
  - rewrite E. reflexivity.
  - rewrite E. now apply insert_subseteq.
Qed.

Lemma serveAll_app (s : Server) (r1 r2 : list Request) (w : World St) :
  serveAll s (r1 ++ r2) w = serveAll s r2 (serveAll s r1 w).
Proof. revert w. induction r1 as [|r r1 IH]; intros w; simpl; auto. Qed.

Lemma serveAll_cache_mono (s : Server) (reqs : list Request) (w : World St) :
  w_cache w ⊆ w_cache (serveAll s reqs w).
Proof.
  revert w. induction reqs as [|r reqs IH]; intros w; simpl.
  - reflexivity.
  - etransitivity; [apply serve_cache_mono | apply IH].
Qed.

(** Where a cache entry comes from: it was there at the start, or the
    [i]-th request was a get-content request for that path whose run made
    a successful read or archive call on it. *)
Lemma serveAll_cache_origin (s : Server) (reqs : list Request) (w : World St)
    (k v : string) :
  w_cache (serveAll s reqs w) !! k = Some v ->
  w_cache w !! k = Some v \/
  exists i addr, reqs !! i = Some (GetContent addr) /\
    GoStr.Join [rootDir s; addr] = k /\
    let wi := serveAll s (take i reqs) w in
    let l := drop (List.length (w_calls wi)) (w_calls (serve s (GetContent addr) wi)) in
    CReadFile k true ∈ l \/ CZipToBytes k true ∈ l.
Proof.
  revert k v. induction reqs as [|r reqs IH] using rev_ind; intros k v Hk.
  - left. exact Hk.
  - rewrite serveAll_app in Hk. simpl in Hk.
    set (wn := serveAll s reqs w) in *.
    assert (Hold : w_cache wn !! k = Some v ->
      w_cache w !! k = Some v \/
      exists i addr, (reqs ++ [r])%list !! i = Some (GetContent addr) /\
        GoStr.Join [rootDir s; addr] = k /\
        let wi := serveAll s (take i (reqs ++ [r])%list) w in
        let l := drop (List.length (w_calls wi)) (w_calls (serve s (GetContent addr) wi)) in
        CReadFile k true ∈ l \/ CZipToBytes k true ∈ l).
    { intros Hwn. destruct (IH k v Hwn) as [Hw | (i & addr & Hi & Hp & Hl)].
      - left. exact Hw.
      - right. exists i, addr.
        assert (Hlt : i < List.length reqs) by (apply lookup_lt_Some in Hi; exact Hi).
        rewrite lookup_app_l by exact Hlt.
        rewrite take_app_le by lia. auto. }
    destruct (serve_cache_step s r wn) as [E | (addr & -> & Hn & data & l & E1 & E2 & Hl)].
    + rewrite E in Hk. now apply Hold.
    + rewrite E1 in Hk.
      destruct (decide (k = GoStr.Join [rootDir s; addr])) as [-> | Hne].
      * right. exists (List.length reqs), addr.
        rewrite lookup_app_r by lia. rewrite Nat.sub_diag.
        split; [reflexivity|]. split; [reflexivity|].
        rewrite take_app_length. cbv zeta. fold wn. rewrite E2, drop_app_length. exact Hl.
      * rewrite lookup_insert_ne in Hk by congruence. now apply Hold.
Qed.

(** C6: in every state reached from a created server by a sequence of
    requests, every key of the cache is the resolved path of an earlier
    get-content request whose run read that file or archived that
    directory successfully (no error branch fills the cache), and the cache
    only grows: the cache after the first [n] requests is contained in the
    cache after the first [m], for [n <= m] (no entry is removed or
    changed). *)
Theorem cache_keys_from_successful_reads (opts : Opts) (st0 st : St)
    (s : Server) (reqs : list Request) :
  Create opts st0 = Ok (st, s) ->
  let w0 := initWorld st in
  (forall k v, w_cache (serveAll s reqs w0) !! k = Some v ->
     exists i addr, reqs !! i = Some (GetContent addr) /\
       GoStr.Join [rootDir s; addr] = k /\
       let wi := serveAll s (take i reqs) w0 in
       let l := drop (List.length (w_calls wi)) (w_calls (serve s (GetContent addr) wi)) in
       CReadFile k true ∈ l \/ CZipToBytes k true ∈ l) /\
  (forall n m, n <= m ->
     w_cache (serveAll s (take n reqs) w0) ⊆ w_cache (serveAll s (take m reqs) w0)).
Proof.
  intros _ w0. split.
  - intros k v Hk. destruct (serveAll_cache_origin s reqs w0 k v Hk) as [H0 | Hi].
    + unfold w0, initWorld in H0. simpl in H0. rewrite lookup_empty in H0. discriminate.
    + exact Hi.
  - intros n m Hnm.
    rewrite <- (take_drop n (take m reqs)). rewrite take_take.
    rewrite (Nat.min_l n m Hnm). rewrite serveAll_app. apply serveAll_cache_mono.
Qed.

End Invariant.

Lemma str_app_assoc (a b c : string) : ((a ++ b) ++ c)%string = (a ++ (b ++ c))%string.
Proof. induction a as [|ch a IH]; [reflexivity | exact (f_equal (String ch) IH)]. Qed.

Section Upload.
Context {St : Type} `{OS St}.

(** C3 (as the code behaves): when the archive of a zip upload cannot be
    decoded, the handler answers 400 with the error text, logs at Warn, and
    then, since the branch does not return, also logs the Info success event
    and appends the success confirmation to the response body. *)
Theorem uploadFile_unzip_error_confirms (s : Server) (addr reqData : string)
    (w : World St) (e : goerror) :
  let path := GoStr.Join [rootDir s; addr] in
  noDirs s = false ->
  zip_NewReader reqData = Err e ->
  uploadFile s "application/zip" addr (Ok reqData) (freshResp w) =
    (mkWorld (w_fs w) (w_cache w) (w_calls w ++ [CNewReader false])
       (w_log w ++ [(Debug, "Received upload file request");
                    (Warn, "Failed to unzip upload file request data");
                    (Info, "File data successfully uploaded")])
       (mkResp true 400 plainContentType
          ("Failed to read zip data: " ++ err_msg e
           ++ "Successfully wrote data to '" ++ path ++ "'")), Cont tt).
Proof.
  intros path Hnd Hr. destruct w as [fs c calls lg r]. unfold path.
  run_handler. rewrite Hnd. simpl. rewrite Hr. simpl.
  rewrite <- !app_assoc, str_app_assoc. reflexivity.
Qed.

(** C10: an upload whose content type is not application/zip and whose
    resolved path holds no '/' panics when it slices the path at index -1:
    nothing is written to the response (no 400 answer), only the Debug line
    is logged, and no call reaches the host. *)
Theorem uploadFile_raw_no_slash_panics (s : Server) (contentType addr reqData : string)
    (w : World St) :
  contentType <> "application/zip" ->
  GoStr.LastIndexSlash (GoStr.Join [rootDir s; addr]) = (-1)%Z ->
  uploadFile s contentType addr (Ok reqData) (freshResp w) =
    (mkWorld (w_fs w) (w_cache w) (w_calls w)
       (w_log w ++ [(Debug, "Received upload file request")]) emptyResp,
     Panic "runtime error: slice bounds out of range [:-1]").
Proof.
  intros Hct Hi. destruct w as [fs c calls lg r].
  run_handler. apply String.eqb_neq in Hct. rewrite Hct. rewrite Hi. reflexivity.
Qed.

End Upload.

(** C1 (as the code behaves): a zip upload to /d under the root /srv of an
    archive decoding to a.txt = "hello" and sub/b.txt = "world" creates
    /srv/d and writes /srv/d/a.txt, but [unzipToDir] creates only the
    destination before each entry, never the entry's own directory
    /srv/d/sub: opening /srv/d/sub/b.txt fails, the answer has status 400
    and /srv/d/sub/b.txt does not exist. *)
Theorem unzip_upload_nested_entry_missing
    (zipToBytes : MemFS.FS -> string -> result string)
    (newReader : string -> result (list ZipFile)) (body : string) :
  newReader body = Ok demoEntries ->
  let w' := fst (@uploadFile _ (MemFS.memOS zipToBytes newReader) srvServer
                   "application/zip" "/d" (Ok body) (initWorld MemFS.srvFS)) in
  r_status (w_resp w') = 400%Z /\
  MemFS.stat (w_fs w') "/srv/d" = Ok (mkInfo true) /\
  MemFS.readFile (w_fs w') "/srv/d/a.txt" = Ok "hello" /\
  isOk (MemFS.stat (w_fs w') "/srv/d/sub/b.txt") = false /\
  isOk (MemFS.stat (w_fs w') "/srv/d/sub") = false.
Proof.
  intros Hr w'. unfold w'. run_handler. rewrite Hr. vm_compute. repeat split.
Qed.

Section Create.
Context {St : Type} `{OS St}.

(** C9: once the logger is created (a bad log file path is a separate
    configuration error, fatal on its own), construction succeeds for a
    root that exists and is a directory; for a root that does not exist
    ([ErrNotExist]) it creates it with [os.MkdirAll] and succeeds when that
    succeeds; it fails with an error starting with "failed to read root
    dir" when the root cannot be used: it does not exist and MkdirAll
    fails, its stat fails otherwise (a component of the path is a regular
    file, permission denied), or it exists and is not a directory. *)
Theorem Create_root_dir (opts : Opts) (st st1 : St) :
  createLogWriter st (LogLevel opts) (LogFile opts) = Ok st1 ->
  let srv := mkServer (RootDir opts) (NoCache opts) (NoDirectories opts) in
  (forall inf, os_Stat st1 (RootDir opts) = Ok inf -> IsDir inf = true ->
     Create opts st = Ok (st1, srv)) /\
  (forall e st2, os_Stat st1 (RootDir opts) = Err e -> err_notExist e = true ->
     os_MkdirAll st1 (RootDir opts) = Ok st2 -> Create opts st = Ok (st2, srv)) /\
  (forall e e', os_Stat st1 (RootDir opts) = Err e -> err_notExist e = true ->
     os_MkdirAll st1 (RootDir opts) = Err e' ->
     exists err, Create opts st = Err err /\
       String.prefix "failed to read root dir" (err_msg err) = true) /\
  (forall e, os_Stat st1 (RootDir opts) = Err e -> err_notExist e = false ->
     exists err, Create opts st = Err err /\
       String.prefix "failed to read root dir" (err_msg err) = true) /\
  (forall inf, os_Stat st1 (RootDir opts) = Ok inf -> IsDir inf = false ->
     exists err, Create opts st = Err err /\
       String.prefix "failed to read root dir" (err_msg err) = true).
Proof.
  intros Hl srv. unfold Create, checkIsDir. rewrite Hl.
  split; [|split; [|split; [|split]]].
  - intros inf Hs Hd. now rewrite Hs, Hd.
  - intros e st2 Hs He Hm. now rewrite Hs, He, Hm.
  - intros e e' Hs He Hm. rewrite Hs, He, Hm. eexists. split; reflexivity.
  - intros e Hs He. rewrite Hs, He. eexists. split; reflexivity.
  - intros inf Hs Hd. rewrite Hs, Hd. eexists. split; reflexivity.
Qed.

End Create.


(** ** Witnesses: the theorems at concrete inputs *)


Lemma getFile_cache_hit_witness :
  noCache srvServer = false /\
  w_cache cachedWorld !! GoStr.Join [rootDir srvServer; "/x"] = Some "cached" /\
  @getFile _ demoOS srvServer "/x" (freshResp cachedWorld) =
    (mkWorld (w_fs cachedWorld) (w_cache cachedWorld) (w_calls cachedWorld)
       (w_log cachedWorld ++ [(Debug, "Received get file request");
                              (Info, "Retrieved file data from cache")])
       (mkResp true 200 "application/zip" "cached"), Stop).
Proof.
  split; [reflexivity|]. split; [vm_compute; reflexivity|].
  apply (@getFile_cache_hit _ demoOS srvServer "/x" "cached" cachedWorld);
    vm_compute; reflexivity.
Defined.

Lemma getFile_dir_twice_witness :
  let w := @initWorld MemFS.FS MemFS.srvFS in
  let path := GoStr.Join [rootDir srvServer; "/"] in
  noCache srvServer = false /\ noDirs srvServer = false /\
  w_cache w !! path = None /\
  MemFS.stat (w_fs w) path = Ok (mkInfo true) /\
  demoZipToBytes (w_fs w) path = Ok "zip:/srv" /\
  (let w1 := fst (@getFile _ demoOS srvServer "/" (freshResp w)) in
   let w2 := fst (@getFile _ demoOS srvServer "/" (freshResp w1)) in
   w_resp w1 = mkResp true 200 "application/zip" "zip:/srv" /\
   w_resp w2 = mkResp true 200 "application/zip" "zip:/srv" /\
   w_cache w1 = <[path := "zip:/srv"]> (w_cache w) /\
   w_calls w1 = (w_calls w ++ [CStat path true; CZipToBytes path true])%list /\
   w_calls w2 = w_calls w1 /\
   w_cache w2 = w_cache w1 /\ w_fs w2 = w_fs w1 /\ w_fs w1 = w_fs w).
Proof.
  intros w path.
  split; [reflexivity|]. split; [reflexivity|].
  split; [vm_compute; reflexivity|]. split; [vm_compute; reflexivity|].
  split; [vm_compute; reflexivity|].
  apply (@getFile_dir_twice _ demoOS srvServer "/" "zip:/srv" w (mkInfo true));
    vm_compute; reflexivity.
Defined.

Lemma getFile_dir_noDirs_witness :
  let s := mkServer "/srv" false true in
  let w := @initWorld MemFS.FS MemFS.srvFS in
  let path := GoStr.Join [rootDir s; "/"] in
  noDirs s = true /\ w_cache w !! path = None /\
  MemFS.stat (w_fs w) path = Ok (mkInfo true) /\
  @getFile _ demoOS s "/" (freshResp w) =
    (mkWorld (w_fs w) (w_cache w) (w_calls w ++ [CStat path true])
       (w_log w ++ [(Debug, "Received get file request");
                    (Warn, "Path '%s' is a directory and noDirs flag is true")])
       (mkResp true 400 plainContentType
          ("Path '" ++ path ++ "' is a directory and noDirs flag is true")), Stop).
Proof.
  intros s w path.
  split; [reflexivity|]. split; [vm_compute; reflexivity|].
  split; [vm_compute; reflexivity|].
  apply (@getFile_dir_noDirs _ demoOS s "/" w (mkInfo true));
    [reflexivity | right; vm_compute; reflexivity | vm_compute; reflexivity | reflexivity].
Defined.

Lemma getFile_stat_error_witness :
  let w := @initWorld MemFS.FS MemFS.srvFS in
  let path := GoStr.Join [rootDir srvServer; "/missing"] in
  let e := MemFS.enoent "stat" "/srv/missing" in
  w_cache w !! path = None /\
  MemFS.stat (w_fs w) path = Err e /\
  @getFile _ demoOS srvServer "/missing" (freshResp w) =
    (mkWorld (w_fs w) (w_cache w) (w_calls w ++ [CStat path false])
       (w_log w ++ [(Debug, "Received get file request");
                    (Warn, "Failed to read file data")])
       (mkResp true 400 plainContentType
          ("Failed to read file at '" ++ path ++ "': " ++ err_msg e)), Stop).
Proof.
  intros w path e.
  split; [vm_compute; reflexivity|]. split; [vm_compute; reflexivity|].
  apply (@getFile_stat_error _ demoOS srvServer "/missing" w e);
    [right; vm_compute; reflexivity | vm_compute; reflexivity].
Defined.

Lemma cache_keys_from_successful_reads_witness :
  let reqs := [GetContent "/"; PostContent "text/plain" "/a.txt" (Ok "a");
               GetContent "/a.txt"] in
  @Create _ demoOS srvOpts MemFS.srvFS = Ok (MemFS.srvFS, srvServer) /\
  (let w0 := @initWorld MemFS.FS MemFS.srvFS in
   (forall k v, w_cache (@serveAll _ demoOS srvServer reqs w0) !! k = Some v ->
      exists i addr, reqs !! i = Some (GetContent addr) /\
        GoStr.Join [rootDir srvServer; addr] = k /\
        let wi := @serveAll _ demoOS srvServer (take i reqs) w0 in
        let l := drop (List.length (w_calls wi))
                   (w_calls (@serve _ demoOS srvServer (GetContent addr) wi)) in
        CReadFile k true ∈ l \/ CZipToBytes k true ∈ l) /\
   (forall n m, n <= m ->
      w_cache (@serveAll _ demoOS srvServer (take n reqs) w0)
      ⊆ w_cache (@serveAll _ demoOS srvServer (take m reqs) w0))).
Proof.
  intros reqs. split; [vm_compute; reflexivity|].
  apply (@cache_keys_from_successful_reads _ demoOS srvOpts MemFS.srvFS MemFS.srvFS
           srvServer reqs).
  vm_compute. reflexivity.
Defined.

Lemma uploadFile_unzip_error_confirms_witness :
  let w := @initWorld MemFS.FS MemFS.srvFS in
  let e := mkErr "zip: not a valid zip file" false in
  noDirs srvServer = false /\ demoNewReader "garbage" = Err e /\
  @uploadFile _ demoOS srvServer "application/zip" "/d" (Ok "garbage") (freshResp w) =
    (mkWorld (w_fs w) (w_cache w) (w_calls w ++ [CNewReader false])
       (w_log w ++ [(Debug, "Received upload file request");
                    (Warn, "Failed to unzip upload file request data");
                    (Info, "File data successfully uploaded")])
       (mkResp true 400 plainContentType
          ("Failed to read zip data: " ++ err_msg e
           ++ "Successfully wrote data to '" ++ GoStr.Join [rootDir srvServer; "/d"] ++ "'")),
     Cont tt).
Proof.
  intros w e. split; [reflexivity|]. split; [reflexivity|].
  apply (@uploadFile_unzip_error_confirms _ demoOS srvServer "/d" "garbage" w e);
    reflexivity.
Defined.

Lemma uploadFile_raw_no_slash_panics_witness :
  let s := mkServer "data" false false in
  let w := @initWorld MemFS.FS MemFS.srvFS in
  "text/plain" <> "application/zip" /\
  GoStr.Join [rootDir s; "/"] = "data" /\
  GoStr.LastIndexSlash (GoStr.Join [rootDir s; "/"]) = (-1)%Z /\
  @uploadFile _ demoOS s "text/plain" "/" (Ok "x") (freshResp w) =
    (mkWorld (w_fs w) (w_cache w) (w_calls w)
       (w_log w ++ [(Debug, "Received upload file request")]) emptyResp,
     Panic "runtime error: slice bounds out of range [:-1]").
Proof.
  intros s w. split; [discriminate|]. split; [reflexivity|].
  split; [reflexivity|].
  apply (@uploadFile_raw_no_slash_panics _ demoOS s "text/plain" "/" "x" w);
    [discriminate | reflexivity].
Defined.

Lemma unzip_upload_nested_entry_missing_witness :
  demoNewReader "ZIP" = Ok demoEntries /\
  (let w' := fst (@uploadFile _ (MemFS.memOS demoZipToBytes demoNewReader) srvServer
                    "application/zip" "/d" (Ok "ZIP") (initWorld MemFS.srvFS)) in
   r_status (w_resp w') = 400%Z /\
   MemFS.stat (w_fs w') "/srv/d" = Ok (mkInfo true) /\
   MemFS.readFile (w_fs w') "/srv/d/a.txt" = Ok "hello" /\
   isOk (MemFS.stat (w_fs w') "/srv/d/sub/b.txt") = false /\
   isOk (MemFS.stat (w_fs w') "/srv/d/sub") = false).
Proof.
  split; [reflexivity|].
  apply (unzip_upload_nested_entry_missing demoZipToBytes demoNewReader "ZIP").
  reflexivity.
Defined.

Lemma Create_root_dir_witness :
  let opts := mkOpts "localhost" 9092 "/f/x" "DEBUG" "" false false in
  let srv := mkServer (RootDir opts) (NoCache opts) (NoDirectories opts) in
  MemFS.stat fileFS (RootDir opts) = Err (MemFS.enotdir "stat" "/f/x") /\
  @Create _ demoOS opts fileFS
    = Err (errorf "failed to read root dir: stat /f/x: not a directory") /\
  @createLogWriter _ demoOS fileFS (LogLevel opts) (LogFile opts) = Ok fileFS /\
  (forall inf, MemFS.stat fileFS (RootDir opts) = Ok inf -> IsDir inf = true ->
     @Create _ demoOS opts fileFS = Ok (fileFS, srv)) /\
  (forall e st2, MemFS.stat fileFS (RootDir opts) = Err e -> err_notExist e = true ->
     MemFS.mkdirAll fileFS (RootDir opts) = Ok st2 ->
     @Create _ demoOS opts fileFS = Ok (st2, srv)) /\
  (forall e e', MemFS.stat fileFS (RootDir opts) = Err e -> err_notExist e = true ->
     MemFS.mkdirAll fileFS (RootDir opts) = Err e' ->
     exists err, @Create _ demoOS opts fileFS = Err err /\
       String.prefix "failed to read root dir" (err_msg err) = true) /\
  (forall e, MemFS.stat fileFS (RootDir opts) = Err e -> err_notExist e = false ->
     exists err, @Create _ demoOS opts fileFS = Err err /\
       String.prefix "failed to read root dir" (err_msg err) = true) /\
  (forall inf, MemFS.stat fileFS (RootDir opts) = Ok inf -> IsDir inf = false ->
     exists err, @Create _ demoOS opts fileFS = Err err /\
       String.prefix "failed to read root dir" (err_msg err) = true).
Proof.
  intros opts srv.
  split; [vm_compute; reflexivity|]. split; [vm_compute; reflexivity|].
  split; [reflexivity|].
  apply (@Create_root_dir _ demoOS opts fileFS fileFS). reflexivity.
Defined.

(** ** Further properties of the handlers *)

Section MoreHandlers.
Context {St : Type} `{OS St}.

(** X1: a listing request whose directory can be read answers 200 with the
    entry names joined by commas, logs Info, makes only the ReadDir call and
    changes neither the file system nor the cache. *)
Theorem getEntries_ok (s : Server) (addr : string) (w : World St)
    (names : list string) :
  let path := GoStr.Join [rootDir s; addr] in
  os_ReadDir (w_fs w) path = Ok names ->
  getEntries s addr (freshResp w) =
    (mkWorld (w_fs w) (w_cache w) (w_calls w ++ [CReadDir path true])
       (w_log w ++ [(Info, "Successfully processed entries request")])
       (mkResp true 200 plainContentType (GoStr.joinWith "," names)), Cont tt).
Proof. intros path Hr. destruct w. unfold path in *. run_handler. now rewrite Hr. Qed.

(** X2: a listing request whose directory cannot be read answers 400 with
    the resolved path and the error text and logs Warn. *)
Theorem getEntries_error (s : Server) (addr : string) (w : World St)
    (e : goerror) :
  let path := GoStr.Join [rootDir s; addr] in
  os_ReadDir (w_fs w) path = Err e ->
  getEntries s addr (freshResp w) =
    (mkWorld (w_fs w) (w_cache w) (w_calls w ++ [CReadDir path false])
       (w_log w ++ [(Warn, "Failed to get entries in directory")])
       (mkResp true 400 plainContentType
          ("Failed to read directory '" ++ path ++ "': " ++ err_msg e)), Stop).
Proof. intros path Hr. destruct w. unfold path in *. run_handler. now rewrite Hr. Qed.

(** X3: a raw (non-zip) upload whose resolved path holds a '/' creates the
    part of the path before the last '/' with MkdirAll, creates or
    truncates the file, writes the whole body, and then answers 200 with the
    confirmation naming the path and logs Info; the cache is unchanged. *)
Theorem uploadFile_raw_ok (s : Server) (contentType addr data : string)
    (w : World St) (st1 st2 st3 : St) :
  let path := GoStr.Join [rootDir s; addr] in
  let i := GoStr.LastIndexSlash path in
  let dir := substring 0 (Z.to_nat i) path in
  contentType <> "application/zip" -> (0 <= i)%Z ->
  os_MkdirAll (w_fs w) dir = Ok st1 ->
  os_OpenFile st1 path = Ok st2 ->
  os_Write st2 path data = Ok st3 ->
  uploadFile s contentType addr (Ok data) (freshResp w) =
    (mkWorld st3 (w_cache w)
       (w_calls w ++ [CMkdirAll dir true; COpenFile path true; CWrite path true])
       (w_log w ++ [(Debug, "Received upload file request");
                    (Info, "File data successfully uploaded")])
       (mkResp true 200 plainContentType
          ("Successfully wrote data to '" ++ path ++ "'")), Cont tt).
Proof.
  intros path i dir Hct Hi Hm Ho Hw. destruct w as [fs c calls lg r].
  unfold dir, i, path in *. run_handler.
  apply String.eqb_neq in Hct. rewrite Hct.
  destruct (GoStr.LastIndexSlash _ <? 0)%Z eqn:Hlt; [apply Z.ltb_lt in Hlt; lia|].
  simpl. rewrite Hm. simpl. rewrite Ho. simpl. rewrite Hw. simpl.
  now rewrite <- !app_assoc.
Qed.

(** X4: a raw upload whose directory part cannot be created answers 400
    naming that directory and the error, logs Warn, and neither opens nor
    writes the file. *)
Theorem uploadFile_raw_mkdir_error (s : Server) (contentType addr data : string)
    (w : World St) (e : goerror) :
  let path := GoStr.Join [rootDir s; addr] in
  let i := GoStr.LastIndexSlash path in
  let dir := substring 0 (Z.to_nat i) path in
  contentType <> "application/zip" -> (0 <= i)%Z ->
  os_MkdirAll (w_fs w) dir = Err e ->
  uploadFile s contentType addr (Ok data) (freshResp w) =
    (mkWorld (w_fs w) (w_cache w) (w_calls w ++ [CMkdirAll dir false])
       (w_log w ++ [(Debug, "Received upload file request");
                    (Warn, "Failed to create dirs")])
       (mkResp true 400 plainContentType
          ("Failed to make dirs '" ++ dir ++ "': " ++ err_msg e)), Stop).
Proof.
  intros path i dir Hct Hi Hm. destruct w as [fs c calls lg r].
  unfold dir, i, path in *. run_handler.
  apply String.eqb_neq in Hct. rewrite Hct.
  destruct (GoStr.LastIndexSlash _ <? 0)%Z eqn:Hlt; [apply Z.ltb_lt in Hlt; lia|].
  simpl. rewrite Hm. simpl. now rewrite <- !app_assoc.
Qed.

(** X5: a raw upload whose write fails after the file was created or
    truncated answers 400 naming the file and the error and logs Warn; the
    file system keeps the state after the open (the file is not removed). *)
Theorem uploadFile_raw_write_error (s : Server) (contentType addr data : string)
    (w : World St) (st1 st2 : St) (e : goerror) :
  let path := GoStr.Join [rootDir s; addr] in
  let i := GoStr.LastIndexSlash path in
  let dir := substring 0 (Z.to_nat i) path in
  contentType <> "application/zip" -> (0 <= i)%Z ->
  os_MkdirAll (w_fs w) dir = Ok st1 ->
  os_OpenFile st1 path = Ok st2 ->
  os_Write st2 path data = Err e ->
  uploadFile s contentType addr (Ok data) (freshResp w) =
    (mkWorld st2 (w_cache w)
       (w_calls w ++ [CMkdirAll dir true; COpenFile path true; CWrite path false])
       (w_log w ++ [(Debug, "Received upload file request");
                    (Warn, "Failed to write file data during upload file request")])
       (mkResp true 400 plainContentType
          ("Failed to write data to file '" ++ path ++ "': " ++ err_msg e)), Stop).
Proof.
  intros path i dir Hct Hi Hm Ho Hw. destruct w as [fs c calls lg r].
  unfold dir, i, path in *. run_handler.
  apply String.eqb_neq in Hct. rewrite Hct.
  destruct (GoStr.LastIndexSlash _ <? 0)%Z eqn:Hlt; [apply Z.ltb_lt in Hlt; lia|].
  simpl. rewrite Hm. simpl. rewrite Ho. simpl. rewrite Hw. simpl.
  now rewrite <- !app_assoc.
Qed.

(** X6: a get-content request for a regular file not served from the cache
    answers 200 with the file's bytes and content type "raw", logs Info,
    and, with caching enabled, stores the bytes under the resolved path. *)
Theorem getFile_file_ok (s : Server) (addr data : string) (w : World St)
    (inf : FileInfo) :
  let path := GoStr.Join [rootDir s; addr] in
  (noCache s = true \/ w_cache w !! path = None) ->
  os_Stat (w_fs w) path = Ok inf -> IsDir inf = false ->
  os_ReadFile (w_fs w) path = Ok data ->
  getFile s addr (freshResp w) =
    (mkWorld (w_fs w)
       (if noCache s then w_cache w else <[path := data]> (w_cache w))
       (w_calls w ++ [CStat path true; CReadFile path true])
       (w_log w ++ [(Debug, "Received get file request");
                    (Info, "Successfully returned file as raw data")])
       (mkResp true 200 "raw" data), Cont tt).
Proof.
  intros path Hmiss Hst Hd Hrd. destruct w as [fs c calls lg r].
  unfold path in *. run_handler.
  destruct (noCache s) eqn:Hnc; simpl;
    [| destruct Hmiss as [Hf | Hc]; [discriminate | rewrite Hc]]; simpl;
    rewrite Hst; simpl; rewrite Hd; simpl; rewrite Hrd; simpl;
    now rewrite <- !app_assoc.
Qed.

(** X7: when a regular file stats but cannot be read, the answer is 400
    with the path and the error; this branch logs nothing (only the Debug
    line of the request) and stores nothing in the cache. *)
Theorem getFile_read_error_silent (s : Server) (addr : string) (w : World St)
    (inf : FileInfo) (e : goerror) :
  let path := GoStr.Join [rootDir s; addr] in
  (noCache s = true \/ w_cache w !! path = None) ->
  os_Stat (w_fs w) path = Ok inf -> IsDir inf = false ->
  os_ReadFile (w_fs w) path = Err e ->
  getFile s addr (freshResp w) =
    (mkWorld (w_fs w) (w_cache w)
       (w_calls w ++ [CStat path true; CReadFile path false])
       (w_log w ++ [(Debug, "Received get file request")])
       (mkResp true 400 plainContentType
          ("Failed to read file at '" ++ path ++ "': " ++ err_msg e)), Stop).
Proof.
  intros path Hmiss Hst Hd Hrd. destruct w as [fs c calls lg r].
  unfold path in *. run_handler.
  destruct (noCache s) eqn:Hnc; simpl;
    [| destruct Hmiss as [Hf | Hc]; [discriminate | rewrite Hc]]; simpl;
    rewrite Hst; simpl; rewrite Hd; simpl; rewrite Hrd; simpl;
    now rewrite <- !app_assoc.
Qed.

(** X8: when archiving a directory fails, the answer is 400 with the path
    and the error, the handler logs Warn, and nothing is cached. *)
Theorem getFile_zip_error (s : Server) (addr : string) (w : World St)
    (inf : FileInfo) (e : goerror) :
  let path := GoStr.Join [rootDir s; addr] in
  noDirs s = false ->
  (noCache s = true \/ w_cache w !! path = None) ->
  os_Stat (w_fs w) path = Ok inf -> IsDir inf = true ->
  zipdir_ZipToBytes (w_fs w) path = Err e ->
  getFile s addr (freshResp w) =
    (mkWorld (w_fs w) (w_cache w)
       (w_calls w ++ [CStat path true; CZipToBytes path false])
       (w_log w ++ [(Debug, "Received get file request"); (Warn, "Failed to zip dir")])
       (mkResp true 400 plainContentType
          ("Failed to zip dir '" ++ path ++ "': " ++ err_msg e)), Stop).
Proof.
  intros path Hnd Hmiss Hst Hd Hz. destruct w as [fs c calls lg r].
  unfold path in *. run_handler.
  destruct (noCache s) eqn:Hnc; simpl;
    [| destruct Hmiss as [Hf | Hc]; [discriminate | rewrite Hc]]; simpl;
    rewrite Hst; simpl; rewrite Hd, Hnd; simpl; rewrite Hz; simpl;
    now rewrite <- !app_assoc.
Qed.

(** X9: with caching disabled, no request of any kind changes the cache. *)
Theorem serve_noCache_keeps_cache (s : Server) (req : Request) (w : World St) :
  noCache s = true -> w_cache (serve s req w) = w_cache w.
Proof.
  intros Hnc. rewrite (proj1 (serve_state s req w)).
  unfold handle. destruct req as [a|a|ct a b].
  - apply (keeps_getEntries s a (freshResp w)).
  - destruct (getFile_cache_step s a (freshResp w)) as [E | (Hf & _)]; [exact E|].
    congruence.
  - apply (keeps_uploadFile s ct a b (freshResp w)).
Qed.

(** X10: with directories disabled, a zip upload answers 400, logs Warn and
    makes no call to the host: nothing is decoded or written. *)
Theorem uploadFile_zip_noDirs (s : Server) (addr reqData : string) (w : World St) :
  noDirs s = true ->
  uploadFile s "application/zip" addr (Ok reqData) (freshResp w) =
    (mkWorld (w_fs w) (w_cache w) (w_calls w)
       (w_log w ++ [(Debug, "Received upload file request");
                    (Warn, "Content type is application/zip but noDirs flag is set to true")])
       (mkResp true 400 plainContentType
          "Content type is application/zip but noDirs flag is set to true"), Stop).
Proof.
  intros Hnd. destruct w as [fs c calls lg r]. run_handler. rewrite Hnd. simpl.
  now rewrite <- !app_assoc.
Qed.

(** X11: an upload whose request body cannot be read answers 400 with the
    error, logs Warn and makes no call to the host, whatever its content
    type. *)
Theorem uploadFile_body_error (s : Server) (contentType addr : string)
    (w : World St) (e : goerror) :
  uploadFile s contentType addr (Err e) (freshResp w) =
    (mkWorld (w_fs w) (w_cache w) (w_calls w)
       (w_log w ++ [(Debug, "Received upload file request");
                    (Warn, "Failed to read upload file request data")])
       (mkResp true 400 plainContentType ("Failed to read request data: " ++ err_msg e)),
     Stop).
Proof. destruct w as [fs c calls lg r]. run_handler. now rewrite <- !app_assoc. Qed.

End MoreHandlers.

(** ** Writing and reading back in the in-memory file system *)

Module MemFSFacts.
Import MemFS.

Lemma walk_insert_short (fs : FS) (k : list string) (n : Node) (op p : string) :
  forall l pre, (List.length pre + List.length l < List.length k)%nat ->
  walk (<[k := n]> fs) op p pre l = walk fs op p pre l.
Proof.
  induction l as [|c l IH]; intros pre Hlen; [reflexivity|]. simpl.
  unfold FS in *. rewrite lookup_insert_ne.
  2:{ intros E. rewrite E, length_app in Hlen. simpl in Hlen. lia. }
  destruct (fs !! (pre ++ [c])%list) as [[|d]|]; [|reflexivity|reflexivity].
  destruct l; [reflexivity|]. apply IH. rewrite length_app. simpl in *. lia.
Qed.

Lemma walk_snoc_dir (fs : FS) (op p : string) (c : string) (n : Node) :
  forall l pre, walk fs op p pre l = Ok NDir ->
  fs !! (pre ++ l ++ [c])%list = Some n ->
  walk fs op p pre (l ++ [c]) = Ok n.
Proof.
  induction l as [|c0 l IH]; intros pre Hw Hl.
  - simpl in *. unfold FS in *. rewrite Hl. destruct n; reflexivity.
  - simpl in Hw |- *. unfold FS in *.
    destruct (fs !! (pre ++ [c0])%list) as [[|d]|] eqn:E; try discriminate.
    + destruct l as [|c1 l].
      * simpl. apply (IH (pre ++ [c0])%list); [reflexivity|].
        simpl. rewrite <- app_assoc. exact Hl.
      * apply (IH (pre ++ [c0])%list Hw). rewrite <- app_assoc. exact Hl.
    + destruct l; discriminate.
Qed.

(** The operation name only shows in the errors. *)
Lemma walk_op_ok (fs : FS) (op op' p : string) :
  forall l pre n, walk fs op p pre l = Ok n -> walk fs op' p pre l = Ok n.
Proof.
  induction l as [|c l IH]; intros pre n Hw; [exact Hw|]. simpl in *.
  unfold FS in *.
  destruct (fs !! (pre ++ [c])%list) as [[|d1]|]; try discriminate;
    destruct l; try discriminate; auto.
Qed.

(** A truncating open followed by a write leaves the written bytes as the
    whole content of the file. *)
Lemma open_write_resolve (fs fs1 fs2 : FS) (p d op : string) :
  openFile true fs p = Ok fs1 -> write fs1 p d = Ok fs2 ->
  resolve fs2 op p = Ok (NFile d).
Proof.
  unfold openFile, write, resolve. intros Ho Hw.
  destruct (String.eqb p "") eqn:Hp; [discriminate|].
  destruct (walk fs "open" p [] (removelast (key p))) as [[|d0]|e] eqn:Hwalk;
    try discriminate.
  assert (Hk : key p <> [] /\ endsWithSlash p = false /\ fs1 = <[key p := NFile ""]> fs).
  { destruct (key p) as [|c k'] eqn:Ek; [discriminate|].
    destruct (fs !! (c :: k')) as [[|d1]|]; destruct (endsWithSlash p);
      inversion Ho; subst; repeat split; congruence. }
  destruct Hk as (Hk & Hslash & ->).
  unfold FS in *. rewrite lookup_insert_eq in Hw. simpl in Hw. inversion Hw; subst fs2.
  rewrite insert_insert_eq.
  destruct (exists_last Hk) as (l & c & Ek). rewrite Ek in *.
  rewrite removelast_last in Hwalk.
  rewrite walk_snoc_dir with (n := NFile d); [now rewrite Hslash | |].
  - rewrite walk_insert_short; [|rewrite length_app; simpl; lia].
    exact (walk_op_ok fs "open" op p l [] NDir Hwalk).
  - simpl. unfold FS in *. rewrite lookup_insert_eq. reflexivity.
Qed.

End MemFSFacts.

Section RoundTrip.
Variable zt : MemFS.FS -> string -> result string.
Variable nr : string -> result (list ZipFile).
#[local] Existing Instance MemFS.memOS.

(** X12: on the in-memory file system, after a raw upload that answered
    200, a get-content request for the same address that is not served from
    the cache answers 200 with exactly the uploaded bytes and content type
    "raw". *)
Theorem upload_raw_then_get (s : Server) (contentType addr data : string)
    (w : World MemFS.FS) :
  let path := GoStr.Join [rootDir s; addr] in
  contentType <> "application/zip" ->
  (noCache s = true \/ w_cache w !! path = None) ->
  let w1 := fst (@uploadFile _ (MemFS.memOS zt nr) s contentType addr (Ok data)
                   (freshResp w)) in
  r_written (w_resp w1) = true -> r_status (w_resp w1) = 200%Z ->
  w_resp (fst (@getFile _ (MemFS.memOS zt nr) s addr (freshResp w1)))
    = mkResp true 200 "raw" data.
Proof.
  intros path Hct Hmiss w1 Hwr Hst. unfold w1 in *. clear w1.
  destruct (uploadFile s contentType addr (Ok data) (freshResp w)) as [w1 e1] eqn:Hup.
  simpl in Hwr, Hst.
  destruct w as [fs c calls lg r]. unfold path in *.
  unfold uploadFile, freshResp, bindM, logM, modifyW, query, effect, ctxString,
    render, stop, panic, retM in Hup.
  simpl in Hup.
  apply String.eqb_neq in Hct. rewrite Hct in Hup.
  destruct (GoStr.LastIndexSlash _ <? 0)%Z; simpl in Hup;
    [inversion Hup; subst; discriminate|].
  set (p := GoStr.Join [rootDir s; addr]) in *.
  destruct (MemFS.mkdirAll fs _) as [fs1|e]; simpl in Hup;
    [|inversion Hup; subst; discriminate].
  destruct (MemFS.openFile true fs1 p) as [fs2|e] eqn:Ho; simpl in Hup;
    [|inversion Hup; subst; discriminate].
  destruct (MemFS.write fs2 p data) as [fs3|e] eqn:Hw; simpl in Hup;
    [|inversion Hup; subst; discriminate].
  inversion Hup; subst w1 e1. clear Hup.
  pose proof (MemFSFacts.open_write_resolve fs1 fs2 fs3 p data "stat" Ho Hw) as Hs.
  pose proof (MemFSFacts.open_write_resolve fs1 fs2 fs3 p data "open" Ho Hw) as Hr.
  run_handler. unfold p in *.
  destruct (noCache s) eqn:Hnc; simpl;
    [| destruct Hmiss as [Hf | Hc]; [discriminate | rewrite Hc]]; simpl;
    unfold MemFS.stat, MemFS.readFile; rewrite Hs; simpl;
    rewrite Hr; reflexivity.
Qed.

End RoundTrip.

(** ** Reading archives, the logger, and construction *)

Lemma readZipFiles_good_acc (files acc : list File) :
  readZipFiles (map goodEntry files) acc = Ok (acc ++ files)%list.
Proof.
  revert acc. induction files as [|f files IH]; intros acc; simpl.
  - now rewrite app_nil_r.
  - destruct f. rewrite IH. now rewrite <- app_assoc.
Qed.

(** X14: reading an archive whose entries all open and read gives back
    the files in the archive's order, with the entry names unchanged. *)
Theorem readZipFiles_roundtrip (files : list File) :
  readZipFiles (map goodEntry files) [] = Ok files.
Proof. apply readZipFiles_good_acc. Qed.

(** X15: the error of reading an archive names the first entry that cannot
    be opened, whatever follows it. *)
Theorem readZipFiles_first_error (files : list File) (bad : ZipFile)
    (rest : list ZipFile) (e : goerror) :
  zf_Open bad = Some e ->
  readZipFiles (map goodEntry files ++ bad :: rest) [] =
    Err (errorf ("Failed to unzip file '" ++ zf_Name bad ++ "': " ++ err_msg e)).
Proof.
  intros Ho. generalize (@nil File) as acc.
  induction files as [|f files IH]; intros acc; simpl; [now rewrite Ho | apply IH].
Qed.

(** X17: when standard output fails, the log writer returns that error and
    does not write to the log file. *)
Theorem logWriterWrite_stdout_error (stdout : Sink) (file : option Sink)
    (p : string) (e : goerror) :
  sink_fail stdout = Some e ->
  logWriterWrite stdout file p = (stdout, file, (0%Z, Some e)).
Proof. intros He. unfold logWriterWrite, sinkWrite. now rewrite He. Qed.

(** X18: when standard output takes the line and there is a log file, the
    line goes to both and the writer returns the log file's result, so an
    error of the file is reported although the line reached standard
    output. *)
Theorem logWriterWrite_both (stdout f : Sink) (p : string) :
  sink_fail stdout = None ->
  logWriterWrite stdout (Some f) p =
    (mkSink (sink_data stdout ++ p) None, Some (fst (sinkWrite f p)),
     snd (sinkWrite f p)).
Proof.
  intros He. unfold logWriterWrite. unfold sinkWrite at 1. rewrite He. simpl.
  now destruct (sinkWrite f p).
Qed.

Section Construction.
Context {St : Type} `{OS St}.

(** X13: an archive with an entry that cannot be opened or read makes
    unzipToDir fail before writing anything: no entry, not even one before
    the broken one, reaches the file system, and no call follows the
    decoding. *)
Theorem unzipToDir_entry_error (dir zipData : string) (zfs : list ZipFile)
    (e : goerror) (w : World St) :
  zip_NewReader zipData = Ok zfs -> readZipFiles zfs [] = Err e ->
  unzipToDir dir zipData w =
    (mkWorld (w_fs w) (w_cache w) (w_calls w ++ [CNewReader true]) (w_log w) (w_resp w),
     Cont (Some e)).
Proof.
  intros Hz Hr. destruct w. unfold unzipToDir, bindM, query, retM. simpl.
  rewrite Hz. simpl. now rewrite Hr.
Qed.

(** X16: a log file named without a directory part, such as "gofs.log",
    makes construction fail when MkdirAll of the empty directory name fails
    (as os.MkdirAll("") does): createLogWriter asks for the directory "". *)
Theorem Create_logfile_without_dir (opts : Opts) (st : St) (e : goerror) :
  LogFile opts <> "" -> GoStr.LastIndexSlash (LogFile opts) = (-1)%Z ->
  os_MkdirAll st "" = Err e ->
  Create opts st =
    Err (errorf ("failed to create logger: failed to make dirs '': " ++ err_msg e)).
Proof.
  intros Hne Hi Hm. unfold Create, createLogWriter.
  apply String.eqb_neq in Hne. rewrite Hne. unfold GoStr.Split. rewrite Hi. simpl.
  change (Z.to_nat (-1 + 1)) with 0%nat.
  replace (substring 0 0 (LogFile opts)) with "" by (destruct (LogFile opts); reflexivity).
  now rewrite Hm.
Qed.

(** X19: when construction fails, main.go prints the error and then calls
    Run on the nil server, which panics with a nil pointer dereference; it
    never serves. *)
Theorem mainRun_create_error (opts : Opts) (st : St) (e : goerror) :
  Create opts st = Err e ->
  mainRun opts st =
    (["Error while creating gofs server: " ++ err_msg e ++ "
"],
     Panic "runtime error: invalid memory address or nil pointer dereference").
Proof. intros Hc. unfold mainRun. now rewrite Hc. Qed.

(** X20: the construction of gofs.go panics, before looking at the root,
    for every log file name without a '/', among them the default empty
    name. *)
Theorem GofsV0_Create_no_slash_panics (opts : Opts) (st : St) :
  (GoStr.LastIndexSlash (LogFile opts) < 0)%Z ->
  GofsV0.Create opts st = Panic "runtime error: slice bounds out of range [:-1]".
Proof.
  intros Hi. unfold GofsV0.Create, GofsV0.createLogWriter.
  apply Z.ltb_lt in Hi. now rewrite Hi.
Qed.

End Construction.

(** ** Concrete runs of the further properties *)

Lemma getEntries_ok_witness :
  let w := @initWorld MemFS.FS staleFS in
  let path := GoStr.Join [rootDir srvServer; "/"] in
  MemFS.readDir (w_fs w) path = Ok ["f.txt"] /\
  @getEntries _ demoOS srvServer "/" (freshResp w) =
    (mkWorld (w_fs w) (w_cache w) (w_calls w ++ [CReadDir path true])
       (w_log w ++ [(Info, "Successfully processed entries request")])
       (mkResp true 200 plainContentType (GoStr.joinWith "," ["f.txt"])), Cont tt).
Proof.
  intros w path. split; [vm_compute; reflexivity|].
  apply (@getEntries_ok _ demoOS srvServer "/" w ["f.txt"]). vm_compute; reflexivity.
Defined.

Lemma getEntries_error_witness :
  let w := @initWorld MemFS.FS staleFS in
  let path := GoStr.Join [rootDir srvServer; "/missing"] in
  let e := MemFS.enoent "open" "/srv/missing" in
  MemFS.readDir (w_fs w) path = Err e /\
  @getEntries _ demoOS srvServer "/missing" (freshResp w) =
    (mkWorld (w_fs w) (w_cache w) (w_calls w ++ [CReadDir path false])
       (w_log w ++ [(Warn, "Failed to get entries in directory")])
       (mkResp true 400 plainContentType
          ("Failed to read directory '" ++ path ++ "': " ++ err_msg e)), Stop).
Proof.
  intros w path e. split; [vm_compute; reflexivity|].
  apply (@getEntries_error _ demoOS srvServer "/missing" w e). vm_compute; reflexivity.
Defined.

Lemma uploadFile_raw_ok_witness :
  let w := @initWorld MemFS.FS staleFS in
  let path := GoStr.Join [rootDir srvServer; "/d/new.txt"] in
  let dir := substring 0 (Z.to_nat (GoStr.LastIndexSlash path)) path in
  MemFS.mkdirAll (w_fs w) dir = Ok staleFS_d /\
  MemFS.openFile true staleFS_d path = Ok staleFS_new /\
  MemFS.write staleFS_new path "hi" = Ok staleFS_hi /\
  @uploadFile _ demoOS srvServer "text/plain" "/d/new.txt" (Ok "hi") (freshResp w) =
    (mkWorld staleFS_hi (w_cache w)
       (w_calls w ++ [CMkdirAll dir true; COpenFile path true; CWrite path true])
       (w_log w ++ [(Debug, "Received upload file request");
                    (Info, "File data successfully uploaded")])
       (mkResp true 200 plainContentType
          ("Successfully wrote data to '" ++ path ++ "'")), Cont tt).
Proof.
  intros w path dir.
  split; [vm_compute; reflexivity|]. split; [vm_compute; reflexivity|].
  split; [vm_compute; reflexivity|].
  apply (@uploadFile_raw_ok _ demoOS srvServer "text/plain" "/d/new.txt" "hi" w
           staleFS_d staleFS_new staleFS_hi);
    [discriminate | apply Z.leb_le; vm_compute; reflexivity
    | vm_compute; reflexivity | vm_compute; reflexivity | vm_compute; reflexivity].
Defined.

Lemma uploadFile_raw_mkdir_error_witness :
  let w := @initWorld MemFS.FS staleFS in
  let path := GoStr.Join [rootDir srvServer; "/f.txt/x/y.txt"] in
  let dir := substring 0 (Z.to_nat (GoStr.LastIndexSlash path)) path in
  let e := MemFS.enotdir "mkdir" "/srv/f.txt" in
  MemFS.mkdirAll (w_fs w) dir = Err e /\
  @uploadFile _ demoOS srvServer "text/plain" "/f.txt/x/y.txt" (Ok "hi") (freshResp w) =
    (mkWorld (w_fs w) (w_cache w) (w_calls w ++ [CMkdirAll dir false])
       (w_log w ++ [(Debug, "Received upload file request");
                    (Warn, "Failed to create dirs")])
       (mkResp true 400 plainContentType
          ("Failed to make dirs '" ++ dir ++ "': " ++ err_msg e)), Stop).
Proof.
  intros w path dir e. split; [vm_compute; reflexivity|].
  apply (@uploadFile_raw_mkdir_error _ demoOS srvServer "text/plain" "/f.txt/x/y.txt"
           "hi" w e);
    [discriminate | apply Z.leb_le; vm_compute; reflexivity | vm_compute; reflexivity].
Defined.

Lemma uploadFile_raw_write_error_witness :
  let w := @initWorld MemFS.FS staleFS in
  let path := GoStr.Join [rootDir srvServer; "/d/new.txt"] in
  let dir := substring 0 (Z.to_nat (GoStr.LastIndexSlash path)) path in
  let e := mkErr ("write " ++ path ++ ": no space left on device") false in
  @uploadFile _ faultyOS srvServer "text/plain" "/d/new.txt" (Ok "hi") (freshResp w) =
    (mkWorld staleFS_new (w_cache w)
       (w_calls w ++ [CMkdirAll dir true; COpenFile path true; CWrite path false])
       (w_log w ++ [(Debug, "Received upload file request");
                    (Warn, "Failed to write file data during upload file request")])
       (mkResp true 400 plainContentType
          ("Failed to write data to file '" ++ path ++ "': " ++ err_msg e)), Stop).
Proof.
  intros w path dir e.
  apply (@uploadFile_raw_write_error _ faultyOS srvServer "text/plain" "/d/new.txt"
           "hi" w staleFS_d staleFS_new e);
    [discriminate | apply Z.leb_le; vm_compute; reflexivity
    | vm_compute; reflexivity | vm_compute; reflexivity | vm_compute; reflexivity].
Defined.

Lemma getFile_file_ok_witness :
  let w := @initWorld MemFS.FS staleFS in
  let path := GoStr.Join [rootDir srvServer; "/f.txt"] in
  MemFS.readFile (w_fs w) path = Ok "old" /\
  @getFile _ demoOS srvServer "/f.txt" (freshResp w) =
    (mkWorld (w_fs w) (<[path := "old"]> (w_cache w))
       (w_calls w ++ [CStat path true; CReadFile path true])
       (w_log w ++ [(Debug, "Received get file request");
                    (Info, "Successfully returned file as raw data")])
       (mkResp true 200 "raw" "old"), Cont tt).
Proof.
  intros w path. split; [vm_compute; reflexivity|].
  apply (@getFile_file_ok _ demoOS srvServer "/f.txt" "old" w (mkInfo false));
    [right; vm_compute; reflexivity | vm_compute; reflexivity | reflexivity
    | vm_compute; reflexivity].
Defined.

Lemma getFile_read_error_silent_witness :
  let w := @initWorld MemFS.FS staleFS in
  let path := GoStr.Join [rootDir srvServer; "/f.txt"] in
  let e := deniedErr "open" path in
  @getFile _ faultyOS srvServer "/f.txt" (freshResp w) =
    (mkWorld (w_fs w) (w_cache w)
       (w_calls w ++ [CStat path true; CReadFile path false])
       (w_log w ++ [(Debug, "Received get file request")])
       (mkResp true 400 plainContentType
          ("Failed to read file at '" ++ path ++ "': " ++ err_msg e)), Stop).
Proof.
  intros w path e.
  apply (@getFile_read_error_silent _ faultyOS srvServer "/f.txt" w (mkInfo false) e);
    [right; vm_compute; reflexivity | vm_compute; reflexivity | reflexivity
    | vm_compute; reflexivity].
Defined.

Lemma getFile_zip_error_witness :
  let w := @initWorld MemFS.FS staleFS in
  let path := GoStr.Join [rootDir srvServer; "/"] in
  let e := deniedErr "open" path in
  @getFile _ faultyOS srvServer "/" (freshResp w) =
    (mkWorld (w_fs w) (w_cache w)
       (w_calls w ++ [CStat path true; CZipToBytes path false])
       (w_log w ++ [(Debug, "Received get file request"); (Warn, "Failed to zip dir")])
       (mkResp true 400 plainContentType
          ("Failed to zip dir '" ++ path ++ "': " ++ err_msg e)), Stop).
Proof.
  intros w path e.
  apply (@getFile_zip_error _ faultyOS srvServer "/" w (mkInfo true) e);
    [reflexivity | right; vm_compute; reflexivity | vm_compute; reflexivity
    | reflexivity | vm_compute; reflexivity].
Defined.

Lemma serve_noCache_keeps_cache_witness :
  let s := mkServer "/srv" true false in
  noCache s = true /\
  w_cache (@serve _ demoOS s (GetContent "/f.txt") (initWorld staleFS))
    = w_cache (initWorld staleFS).
Proof.
  intros s. split; [reflexivity|].
  apply (@serve_noCache_keeps_cache _ demoOS s (GetContent "/f.txt") (initWorld staleFS)).
  reflexivity.
Defined.

Lemma uploadFile_zip_noDirs_witness :
  let s := mkServer "/srv" false true in
  let w := @initWorld MemFS.FS staleFS in
  @uploadFile _ demoOS s "application/zip" "/d" (Ok "ZIP") (freshResp w) =
    (mkWorld (w_fs w) (w_cache w) (w_calls w)
       (w_log w ++ [(Debug, "Received upload file request");
                    (Warn, "Content type is application/zip but noDirs flag is set to true")])
       (mkResp true 400 plainContentType
          "Content type is application/zip but noDirs flag is set to true"), Stop).
Proof.
  intros s w. apply (@uploadFile_zip_noDirs _ demoOS s "/d" "ZIP" w). reflexivity.
Defined.

Lemma upload_raw_then_get_witness :
  let w := @initWorld MemFS.FS staleFS in
  let w1 := fst (@uploadFile _ demoOS srvServer "text/plain" "/d/new.txt" (Ok "hi")
                   (freshResp w)) in
  r_written (w_resp w1) = true /\ r_status (w_resp w1) = 200%Z /\
  w_resp (fst (@getFile _ demoOS srvServer "/d/new.txt" (freshResp w1)))
    = mkResp true 200 "raw" "hi".
Proof.
  intros w w1. split; [vm_compute; reflexivity|]. split; [vm_compute; reflexivity|].
  apply (upload_raw_then_get demoZipToBytes demoNewReader srvServer "text/plain"
           "/d/new.txt" "hi" w);
    [discriminate | right; vm_compute; reflexivity
    | vm_compute; reflexivity | vm_compute; reflexivity].
Defined.

Lemma unzipToDir_entry_error_witness :
  let w := @initWorld MemFS.FS staleFS in
  let e := errorf ("Failed to unzip file 'b.txt': zip: unsupported compression algorithm") in
  @unzipToDir _ faultyOS "/srv/d" "ZIP" w =
    (mkWorld (w_fs w) (w_cache w) (w_calls w ++ [CNewReader true]) (w_log w) (w_resp w),
     Cont (Some e)).
Proof.
  intros w e.
  apply (@unzipToDir_entry_error _ faultyOS "/srv/d" "ZIP"
           [goodEntry (mkFile "a.txt" "hello"); brokenEntry] e w);
    vm_compute; reflexivity.
Defined.

Lemma readZipFiles_first_error_witness :
  zf_Open brokenEntry = Some (mkErr "zip: unsupported compression algorithm" false) /\
  readZipFiles (map goodEntry [mkFile "a.txt" "hello"] ++ brokenEntry :: []) [] =
    Err (errorf ("Failed to unzip file '" ++ zf_Name brokenEntry ++ "': "
                 ++ "zip: unsupported compression algorithm")).
Proof.
  split; [reflexivity|].
  apply (readZipFiles_first_error [mkFile "a.txt" "hello"] brokenEntry []
           (mkErr "zip: unsupported compression algorithm" false)).
  reflexivity.
Defined.

Lemma logWriterWrite_stdout_error_witness :
  let e := mkErr "write /dev/stdout: broken pipe" false in
  let out := mkSink "" (Some e) in
  logWriterWrite out (Some (mkSink "" None)) "line" = (out, Some (mkSink "" None), (0%Z, Some e)).
Proof.
  intros e out. apply (logWriterWrite_stdout_error out (Some (mkSink "" None)) "line" e).
  reflexivity.
Defined.

Lemma logWriterWrite_both_witness :
  let f := mkSink "" (Some (mkErr "write /var/log/gofs.log: no space left on device" false)) in
  logWriterWrite (mkSink "" None) (Some f) "line" =
    (mkSink ("" ++ "line") None, Some (fst (sinkWrite f "line")), snd (sinkWrite f "line")).
Proof.
  intros f. apply (logWriterWrite_both (mkSink "" None) f "line"). reflexivity.
Defined.

Lemma Create_logfile_without_dir_witness :
  let opts := mkOpts "localhost" 9092 "/srv" "DEBUG" "gofs.log" false false in
  let e := MemFS.enoent "mkdir" "" in
  @Create _ demoOS opts MemFS.srvFS =
    Err (errorf ("failed to create logger: failed to make dirs '': " ++ err_msg e)).
Proof.
  intros opts e.
  apply (@Create_logfile_without_dir _ demoOS opts MemFS.srvFS e);
    [discriminate | vm_compute; reflexivity | vm_compute; reflexivity].
Defined.

Lemma mainRun_create_error_witness :
  let opts := mkOpts "localhost" 9092 "/f" "DEBUG" "" false false in
  let e := errorf "failed to read root dir: rootDir '/f' is not directory" in
  @mainRun _ demoOS opts fileFS =
    (["Error while creating gofs server: " ++ err_msg e ++ "
"],
     Panic "runtime error: invalid memory address or nil pointer dereference").
Proof.
  intros opts e. apply (@mainRun_create_error _ demoOS opts fileFS e).
  vm_compute; reflexivity.
Defined.

Lemma GofsV0_Create_no_slash_panics_witness :
  @GofsV0.Create _ demoOS srvOpts MemFS.srvFS =
    Panic "runtime error: slice bounds out of range [:-1]".
Proof.
  apply (@GofsV0_Create_no_slash_panics _ demoOS srvOpts MemFS.srvFS).
  apply Z.ltb_lt. vm_compute; reflexivity.
Defined.
